(** * Scalene profile parser: normalisation, aggregates and leak scoring

    A shallow embedding of [src/utils/parser.ts] (the profile parser of the
    extension) together with the data model of [src/types], of the data
    the viewer ([src/views/ProfileViewerPanel.ts]) prepares from a
    normalised report, and of the file utilities ([src/utils/files.ts]).

    Number model.  A JavaScript [number] that carries a metric is modelled
    as an exact rational [Q]: comparisons are exact and [+], [*], [/] are
    the field operations, so IEEE rounding, NaN and the infinities are
    outside the model; the literals [0.3] and [0.01] are [3/10] and
    [1/100].  [undefined] is [None].  Line numbers are non-negative
    integers ([N]).  Equality of metrics is [Qeq] ([==]). *)

From Stdlib Require Import QArith Qround Qminmax Lqa Sorted Permutation Ascii.
From stdpp Require Import gmap strings pretty.

Local Open Scope string_scope.

(** ** JavaScript primitives used by the parser *)

(** Truthiness of a number: every number but zero. *)
Definition truthy (x : Q) : bool := negb (Qeq_bool x 0).

(** Truthiness of a line number. *)
Definition truthyN (n : N) : bool := negb (n =? 0)%N.

(** Truthiness of a string: every string but the empty one. *)
Definition truthyS (s : string) : bool :=
  match s with EmptyString => false | String _ _ => true end.

(** [x < y] on numbers. *)
Definition Qltb (x y : Q) : bool := negb (Qle_bool y x).

(** [v && p v] in a condition, for an optional number [v]: false when [v]
    is [undefined] or zero, else the test [p] on the value. *)
Definition and_then (v : option Q) (p : Q -> bool) : bool :=
  match v with
  | Some x => truthy x && p x
  | None => false
  end.

(** [v || d] for an optional number. *)
Definition or_else (v : option Q) (d : Q) : Q :=
  match v with
  | Some x => if truthy x then x else d
  | None => d
  end.

(** [String(n)] for a line number. *)
Definition js_String (n : N) : string := pretty n.

(** ** Raw data model (the profiler's JSON) *)

Module RawLine.
Record RawScaleneLine := {
  lineno : N;
  line : string;
  n_cpu_percent_python : option Q;
  n_cpu_percent_c : option Q;
  n_sys_percent : option Q;
  n_core_utilization : option Q;
  cpu_samples_list : option (list Q);
  n_malloc_mb : option Q;
  n_peak_mb : option Q;
  n_avg_mb : option Q;
  n_growth_mb : option Q;
  n_python_fraction : option Q;
  n_usage_fraction : option Q;
  n_copy_mb_s : option Q;
  n_mallocs : option Q;
  memory_samples : option (list (Q * Q));
  n_gpu_percent : option Q;
  n_gpu_peak_memory_mb : option Q;
  n_gpu_avg_memory_mb : option Q;
  start_region_line : option N;
  end_region_line : option N;
  start_outermost_loop : option N;
  end_outermost_loop : option N
}.
End RawLine.
Abbreviation RawScaleneLine := RawLine.RawScaleneLine.

Module RawFunction.
Record RawScaleneFunction := {
  name : option string;
  lineno : option N;
  n_cpu_percent_python : option Q;
  n_cpu_percent_c : option Q;
  n_sys_percent : option Q;
  n_malloc_mb : option Q;
  n_peak_mb : option Q;
  n_growth_mb : option Q;
  n_copy_mb_s : option Q
}.
End RawFunction.
Abbreviation RawScaleneFunction := RawFunction.RawScaleneFunction.

Module RawFile.
Record RawScaleneFile := {
  lines : list RawScaleneLine;
  functions : list RawScaleneFunction;
  imports : option (list string);
  leaks : option (gmap string Q)
}.
End RawFile.
Abbreviation RawScaleneFile := RawFile.RawScaleneFile.

(** [files] is the JSON object of the report, given by its entries in the
    order [Object.entries] lists them. *)
Module RawProfile.
Record RawScaleneProfile := {
  alloc_samples : option Q;
  free_samples : option Q;
  args : option (list string);
  elapsed_time_sec : Q;
  entrypoint_dir : option string;
  filename : option string;
  files : list (string * RawScaleneFile);
  growth_rate : option Q
}.
End RawProfile.
Abbreviation RawScaleneProfile := RawProfile.RawScaleneProfile.

(** ** Normalised data model *)

Module LineData.
Record ScaleneLineData := {
  lineno : N;
  code : string;
  n_cpu_percent_python : option Q;
  n_cpu_percent_c : option Q;
  n_sys_percent : option Q;
  n_core_utilization : option Q;
  cpu_samples_count : option nat;
  n_malloc_mb : option Q;
  n_peak_mb : option Q;
  n_avg_mb : option Q;
  n_growth_mb : option Q;
  n_python_fraction : option Q;
  n_usage_fraction : option Q;
  n_copy_mb_s : option Q;
  n_mallocs : option Q;
  memory_samples_count : option nat;
  n_gpu_percent : option Q;
  n_gpu_peak_memory_mb : option Q;
  n_gpu_avg_memory_mb : option Q;
  leak_score : option Q
}.
End LineData.
Abbreviation ScaleneLineData := LineData.ScaleneLineData.

Module Function.
Record ScaleneFunction := {
  name : string;
  lineno : N;
  n_cpu_percent_python : option Q;
  n_cpu_percent_c : option Q;
  n_sys_percent : option Q;
  n_malloc_mb : option Q;
  n_peak_mb : option Q;
  n_growth_mb : option Q;
  n_copy_mb_s : option Q
}.
End Function.
Abbreviation ScaleneFunction := Function.ScaleneFunction.

(** ** Leak scoring *)

(** [v && v > 0] for an optional metric. *)
Definition positive (v : option Q) : bool := and_then v (fun x => Qltb 0 x).

(** [calculateLeakScore]: the four guarded additions to [score], in the
    order of the source. *)
Definition calculateLeakScore (line : RawScaleneLine)
    (leaks : option (gmap string Q)) : Q :=
  let score := 0%Q in
  let score :=
    match leaks with
    | Some m =>
        match m !! js_String (RawLine.lineno line) with
        | Some w => if truthy w then (score + w)%Q else score
        | None => score
        end
    | None => score
    end in
  let score :=
    match RawLine.n_growth_mb line with
    | Some g => if truthy g && Qltb 0 g then (score + g * 10)%Q else score
    | None => score
    end in
  let score :=
    match RawLine.n_malloc_mb line with
    | Some a =>
        if truthy a && Qltb 0 a && positive (RawLine.n_growth_mb line)
        then (score + a * 5)%Q else score
    | None => score
    end in
  let score :=
    match RawLine.n_usage_fraction line with
    | Some u =>
        if Qltb u (3 # 10) && positive (RawLine.n_growth_mb line)
        then (score + 20)%Q else score
    | None => score
    end in
  score.

(** ** Line and function normalisers *)

(** [xs?.length || 0]. *)
Definition samples_count {A} (xs : option (list A)) : nat :=
  match xs with
  | Some l => length l
  | None => 0%nat
  end.

Definition parseScaleneLine (raw : RawScaleneLine)
    (leaks : option (gmap string Q)) : ScaleneLineData :=
  let leakScore := calculateLeakScore raw leaks in
  {| LineData.lineno := RawLine.lineno raw;
     LineData.code := RawLine.line raw;
     LineData.n_cpu_percent_python := RawLine.n_cpu_percent_python raw;
     LineData.n_cpu_percent_c := RawLine.n_cpu_percent_c raw;
     LineData.n_sys_percent := RawLine.n_sys_percent raw;
     LineData.n_core_utilization := RawLine.n_core_utilization raw;
     LineData.cpu_samples_count :=
       Some (samples_count (RawLine.cpu_samples_list raw));
     LineData.n_malloc_mb := RawLine.n_malloc_mb raw;
     LineData.n_peak_mb := RawLine.n_peak_mb raw;
     LineData.n_avg_mb := RawLine.n_avg_mb raw;
     LineData.n_growth_mb := RawLine.n_growth_mb raw;
     LineData.n_python_fraction := RawLine.n_python_fraction raw;
     LineData.n_usage_fraction := RawLine.n_usage_fraction raw;
     LineData.n_copy_mb_s := RawLine.n_copy_mb_s raw;
     LineData.n_mallocs := RawLine.n_mallocs raw;
     LineData.memory_samples_count :=
       Some (samples_count (RawLine.memory_samples raw));
     LineData.n_gpu_percent := RawLine.n_gpu_percent raw;
     LineData.n_gpu_peak_memory_mb := RawLine.n_gpu_peak_memory_mb raw;
     LineData.n_gpu_avg_memory_mb := RawLine.n_gpu_avg_memory_mb raw;
     LineData.leak_score := Some leakScore |}.

(** [parseScaleneFunction]; [None] is the [null] of the source.  The guard
    is [!raw.name || !raw.lineno]: an absent field, an empty name and a
    line number 0 are all falsy. *)
Definition parseScaleneFunction (raw : RawScaleneFunction)
    : option ScaleneFunction :=
  match RawFunction.name raw, RawFunction.lineno raw with
  | Some nm, Some ln =>
      if negb (truthyS nm) || negb (truthyN ln) then None
      else Some
        {| Function.name := nm;
           Function.lineno := ln;
           Function.n_cpu_percent_python :=
             RawFunction.n_cpu_percent_python raw;
           Function.n_cpu_percent_c := RawFunction.n_cpu_percent_c raw;
           Function.n_sys_percent := RawFunction.n_sys_percent raw;
           Function.n_malloc_mb := RawFunction.n_malloc_mb raw;
           Function.n_peak_mb := RawFunction.n_peak_mb raw;
           Function.n_growth_mb := RawFunction.n_growth_mb raw;
           Function.n_copy_mb_s := RawFunction.n_copy_mb_s raw |}
  | _, _ => None
  end.

(** ** Objects keyed by line number

    [Record<number, V>] as the engine keeps it: a property whose key is an
    array index (below [2^32 - 1]) is listed in ascending key order, before
    the other properties, which are listed in the order they were created.
    Assigning to an existing key replaces the value and keeps the place. *)
Module NumObj.
Section Obj.
Context {V : Type}.

Record t := { indexed : list (N * V); named : list (N * V) }.

Definition empty : t := {| indexed := []; named := [] |}.

Definition is_array_index (k : N) : bool := (k <? 4294967295)%N.

Fixpoint put_sorted (k : N) (v : V) (l : list (N * V)) : list (N * V) :=
  match l with
  | [] => [(k, v)]
  | (k', v') :: rest =>
      if (k <? k')%N then (k, v) :: l
      else if (k =? k')%N then (k, v) :: rest
      else (k', v') :: put_sorted k v rest
  end.

Fixpoint put_last (k : N) (v : V) (l : list (N * V)) : list (N * V) :=
  match l with
  | [] => [(k, v)]
  | (k', v') :: rest =>
      if (k =? k')%N then (k, v) :: rest
      else (k', v') :: put_last k v rest
  end.

(** [o[k] = v] *)
Definition set (k : N) (v : V) (o : t) : t :=
  if is_array_index k
  then {| indexed := put_sorted k v (indexed o); named := named o |}
  else {| indexed := indexed o; named := put_last k v (named o) |}.

(** [Object.entries(o)], with the keys still numbers. *)
Definition entries (o : t) : list (N * V) := indexed o ++ named o.

(** [Object.values(o)] *)
Definition values (o : t) : list V := map snd (entries o).
End Obj.
Arguments t : clear implicits.
End NumObj.

(** ** File normaliser *)

Module FileData.
Record ScaleneFileData := {
  lines : NumObj.t ScaleneLineData;
  functions : list ScaleneFunction;
  leaks : gmap string Q
}.
End FileData.
Abbreviation ScaleneFileData := FileData.ScaleneFileData.

(** The body of the loop over [raw.lines]. *)
Definition add_line (leaks : option (gmap string Q))
    (lines : NumObj.t ScaleneLineData) (line : RawScaleneLine)
    : NumObj.t ScaleneLineData :=
  let lineData := parseScaleneLine line leaks in
  NumObj.set (RawLine.lineno line) lineData lines.

Definition parseScaleneFile (raw : RawScaleneFile) : ScaleneFileData :=
  let lines :=
    fold_left (add_line (RawFile.leaks raw)) (RawFile.lines raw) NumObj.empty in
  let functions := omap parseScaleneFunction (RawFile.functions raw) in
  {| FileData.lines := lines;
     FileData.functions := functions;
     FileData.leaks := default ∅ (RawFile.leaks raw) |}.

(** ** Report normaliser *)

Module Profile.
Record ScaleneProfile := {
  program : string;
  args : list string;
  elapsed_time : Q;
  entrypoint_dir : string;
  max_memory_mb : Q;
  total_memory_growth_mb : Q;
  growth_rate : Q;
  total_cpu_percent_python : Q;
  total_cpu_percent_c : Q;
  total_sys_percent : Q;
  alloc_samples : Q;
  free_samples : Q;
  files : gmap string ScaleneFileData
}.
End Profile.
Abbreviation ScaleneProfile := Profile.ScaleneProfile.

(** The mutable locals of [parseScaleneProfile]. *)
Record Locals := {
  maxMemoryMb : Q;
  totalMemoryGrowthMb : Q;
  totalCpuPython : Q;
  totalCpuC : Q;
  totalSys : Q;
  files : gmap string ScaleneFileData
}.

Definition initial : Locals :=
  {| maxMemoryMb := 0; totalMemoryGrowthMb := 0; totalCpuPython := 0;
     totalCpuC := 0; totalSys := 0; files := ∅ |}.

(** [if (v) total += v] *)
Definition add_if (v : option Q) (total : Q) : Q :=
  match v with
  | Some x => if truthy x then (total + x)%Q else total
  | None => total
  end.

(** [if (peak && peak > max) max = peak] *)
Definition raise_max (peak : option Q) (max : Q) : Q :=
  match peak with
  | Some p => if truthy p && Qltb max p then p else max
  | None => max
  end.

(** The body of the inner loop, over the lines of one normalised file. *)
Definition aggregate_line (st : Locals) (lineData : ScaleneLineData)
    : Locals :=
  {| maxMemoryMb := raise_max (LineData.n_peak_mb lineData) (maxMemoryMb st);
     totalMemoryGrowthMb :=
       add_if (LineData.n_growth_mb lineData) (totalMemoryGrowthMb st);
     totalCpuPython :=
       add_if (LineData.n_cpu_percent_python lineData) (totalCpuPython st);
     totalCpuC := add_if (LineData.n_cpu_percent_c lineData) (totalCpuC st);
     totalSys := add_if (LineData.n_sys_percent lineData) (totalSys st);
     files := files st |}.

(** [files[filePath] = normalizedFile] on an ordinary object: the key
    ["__proto__"] reaches the prototype setter and creates no property. *)
Definition assign_file (filePath : string) (normalizedFile : ScaleneFileData)
    (fs : gmap string ScaleneFileData) : gmap string ScaleneFileData :=
  if String.eqb filePath "__proto__" then fs
  else <[filePath := normalizedFile]> fs.

(** The body of the outer loop, over the entries of [raw.files]. *)
Definition aggregate_file (st : Locals) (entry : string * RawScaleneFile)
    : Locals :=
  let '(filePath, fileData) := entry in
  let normalizedFile := parseScaleneFile fileData in
  let st :=
    {| maxMemoryMb := maxMemoryMb st;
       totalMemoryGrowthMb := totalMemoryGrowthMb st;
       totalCpuPython := totalCpuPython st;
       totalCpuC := totalCpuC st;
       totalSys := totalSys st;
       files := assign_file filePath normalizedFile (files st) |} in
  fold_left aggregate_line (NumObj.values (FileData.lines normalizedFile)) st.

(** [a || b] on optional strings, and [a || d] with a string literal. *)
Definition or_str (a b : option string) : option string :=
  match a with
  | Some s => if truthyS s then Some s else b
  | None => b
  end.

Definition or_lit (a : option string) (d : string) : string :=
  match a with
  | Some s => if truthyS s then s else d
  | None => d
  end.

Definition parseScaleneProfile (raw : RawScaleneProfile) : ScaleneProfile :=
  let st := fold_left aggregate_file (RawProfile.files raw) initial in
  let growthRate :=
    if Qltb 0 (maxMemoryMb st)
    then (totalMemoryGrowthMb st / maxMemoryMb st * 100)%Q
    else 0%Q in
  {| Profile.program :=
       or_lit (or_str (RawProfile.args raw ≫= head) (RawProfile.filename raw))
         "Unknown";
     Profile.args := default [] (RawProfile.args raw);
     Profile.elapsed_time := RawProfile.elapsed_time_sec raw;
     Profile.entrypoint_dir := or_lit (RawProfile.entrypoint_dir raw) "";
     Profile.max_memory_mb := maxMemoryMb st;
     Profile.total_memory_growth_mb := totalMemoryGrowthMb st;
     Profile.growth_rate := growthRate;
     Profile.total_cpu_percent_python := totalCpuPython st;
     Profile.total_cpu_percent_c := totalCpuC st;
     Profile.total_sys_percent := totalSys st;
     Profile.alloc_samples := or_else (RawProfile.alloc_samples raw) 0;
     Profile.free_samples := or_else (RawProfile.free_samples raw) 0;
     Profile.files := files st |}.

(** ** Leak classifier *)

(** [threshold] has the default value 50. *)
Definition isLikelyLeak (line : ScaleneLineData) (threshold : option Q)
    : bool :=
  let threshold := default 50%Q threshold in
  Qltb threshold (or_else (LineData.leak_score line) 0).

(** ** Formatting helpers

    [Number.prototype.toFixed] belongs to the engine, not to the parser:
    the helpers take it as a parameter. *)
Section Formatters.
Variable toFixed : Q -> nat -> string.

Definition formatMemoryMb (mb : option Q) : string :=
  match mb with
  | None => "-"
  | Some mb =>
      if Qeq_bool mb 0 then "-"
      else if Qltb mb (1 # 100) then "<0.01 MB"
      else if Qltb mb 1 then toFixed mb 2 +:+ " MB"
      else if Qltb mb 1000 then toFixed mb 1 +:+ " MB"
      else toFixed (mb / 1024)%Q 2 +:+ " GB"
  end.

Definition formatPercent (value : option Q) : string :=
  match value with
  | None => "-"
  | Some value =>
      if Qeq_bool value 0 then "-"
      else if Qltb value (1 # 100) then "<0.01%"
      else toFixed value 2 +:+ "%"
  end.
End Formatters.

(** [toFixed] as ECMAScript defines it for a value of magnitude below
    [10^21]: the sign, then the integer [n] nearest to [x * 10^f] (the
    larger one on a tie) written in decimal, padded with zeros to more than
    [f] digits, with the point before the last [f] digits. *)
Definition Number_toFixed (x : Q) (f : nat) : string :=
  let s := if Qltb x 0 then "-" else "" in
  let x := if Qltb x 0 then (- x)%Q else x in
  let n := Qfloor (x * inject_Z (10 ^ Z.of_nat f) + (1 # 2))%Q in
  let m := pretty (Z.to_N n) in
  let m :=
    if (f =? 0)%nat then m
    else
      let k := String.length m in
      let m :=
        if (k <=? f)%nat
        then String.concat "" (replicate (f + 1 - k) "0") +:+ m
        else m in
      let k := String.length m in
      String.substring 0 (k - f) m +:+ "." +:+ String.substring (k - f) f m in
  s +:+ m.

(** ** The scoring rule as the specification words it

    A second definition, to be compared with [calculateLeakScore]: the sum
    of four independent terms. *)
Definition leak_weight (lineno : N) (leaks : option (gmap string Q)) : Q :=
  match leaks with
  | Some m => default 0%Q (m !! js_String lineno)
  | None => 0%Q
  end.

Definition present_gt0 (v : option Q) : bool :=
  match v with
  | Some x => if Qlt_le_dec 0 x then true else false
  | None => false
  end.

Definition present_below (v : option Q) (bound : Q) : bool :=
  match v with
  | Some x => if Qlt_le_dec x bound then true else false
  | None => false
  end.

Definition leakScore_spec (line : RawScaleneLine)
    (leaks : option (gmap string Q)) : Q :=
  let growthMb := RawLine.n_growth_mb line in
  let mallocMb := RawLine.n_malloc_mb line in
  let usageFraction := RawLine.n_usage_fraction line in
  (leak_weight (RawLine.lineno line) leaks
   + (if present_gt0 growthMb then default 0 growthMb * 10 else 0)
   + (if present_gt0 mallocMb && present_gt0 growthMb
      then default 0 mallocMb * 5 else 0)
   + (if present_below usageFraction (3 # 10) && present_gt0 growthMb
      then 20 else 0))%Q.

(** ** Sample inputs *)

(** A raw line with a number and no metric at all. *)
Definition bare_line (lineno : N) : RawScaleneLine :=
  {| RawLine.lineno := lineno; RawLine.line := "";
     RawLine.n_cpu_percent_python := None; RawLine.n_cpu_percent_c := None;
     RawLine.n_sys_percent := None; RawLine.n_core_utilization := None;
     RawLine.cpu_samples_list := None; RawLine.n_malloc_mb := None;
     RawLine.n_peak_mb := None; RawLine.n_avg_mb := None;
     RawLine.n_growth_mb := None; RawLine.n_python_fraction := None;
     RawLine.n_usage_fraction := None; RawLine.n_copy_mb_s := None;
     RawLine.n_mallocs := None; RawLine.memory_samples := None;
     RawLine.n_gpu_percent := None; RawLine.n_gpu_peak_memory_mb := None;
     RawLine.n_gpu_avg_memory_mb := None; RawLine.start_region_line := None;
     RawLine.end_region_line := None; RawLine.start_outermost_loop := None;
     RawLine.end_outermost_loop := None |}.

(** The same line with another [n_growth_mb]. *)
Definition with_growth (l : RawScaleneLine) (g : option Q) : RawScaleneLine :=
  {| RawLine.lineno := RawLine.lineno l; RawLine.line := RawLine.line l;
     RawLine.n_cpu_percent_python := RawLine.n_cpu_percent_python l;
     RawLine.n_cpu_percent_c := RawLine.n_cpu_percent_c l;
     RawLine.n_sys_percent := RawLine.n_sys_percent l;
     RawLine.n_core_utilization := RawLine.n_core_utilization l;
     RawLine.cpu_samples_list := RawLine.cpu_samples_list l;
     RawLine.n_malloc_mb := RawLine.n_malloc_mb l;
     RawLine.n_peak_mb := RawLine.n_peak_mb l;
     RawLine.n_avg_mb := RawLine.n_avg_mb l;
     RawLine.n_growth_mb := g;
     RawLine.n_python_fraction := RawLine.n_python_fraction l;
     RawLine.n_usage_fraction := RawLine.n_usage_fraction l;
     RawLine.n_copy_mb_s := RawLine.n_copy_mb_s l;
     RawLine.n_mallocs := RawLine.n_mallocs l;
     RawLine.memory_samples := RawLine.memory_samples l;
     RawLine.n_gpu_percent := RawLine.n_gpu_percent l;
     RawLine.n_gpu_peak_memory_mb := RawLine.n_gpu_peak_memory_mb l;
     RawLine.n_gpu_avg_memory_mb := RawLine.n_gpu_avg_memory_mb l;
     RawLine.start_region_line := RawLine.start_region_line l;
     RawLine.end_region_line := RawLine.end_region_line l;
     RawLine.start_outermost_loop := RawLine.start_outermost_loop l;
     RawLine.end_outermost_loop := RawLine.end_outermost_loop l |}.

(** A raw line carrying only the memory fields the examples use. *)
Definition memory_line (lineno : N) (growth malloc usage peak : option Q)
    : RawScaleneLine :=
  {| RawLine.lineno := lineno; RawLine.line := "";
     RawLine.n_cpu_percent_python := None; RawLine.n_cpu_percent_c := None;
     RawLine.n_sys_percent := None; RawLine.n_core_utilization := None;
     RawLine.cpu_samples_list := None; RawLine.n_malloc_mb := malloc;
     RawLine.n_peak_mb := peak; RawLine.n_avg_mb := None;
     RawLine.n_growth_mb := growth; RawLine.n_python_fraction := None;
     RawLine.n_usage_fraction := usage; RawLine.n_copy_mb_s := None;
     RawLine.n_mallocs := None; RawLine.memory_samples := None;
     RawLine.n_gpu_percent := None; RawLine.n_gpu_peak_memory_mb := None;
     RawLine.n_gpu_avg_memory_mb := None; RawLine.start_region_line := None;
     RawLine.end_region_line := None; RawLine.start_outermost_loop := None;
     RawLine.end_outermost_loop := None |}.

(** Line 10 and line 20 of the end-to-end scenario. *)
Definition line10 : RawScaleneLine :=
  memory_line 10 (Some 5%Q) (Some 2%Q) (Some (1 # 10)) None.
Definition line20 : RawScaleneLine := bare_line 20.

(** A normalised line that carries nothing but a leak score. *)
Definition scored_line (score : option Q) : ScaleneLineData :=
  {| LineData.lineno := 1; LineData.code := "";
     LineData.n_cpu_percent_python := None; LineData.n_cpu_percent_c := None;
     LineData.n_sys_percent := None; LineData.n_core_utilization := None;
     LineData.cpu_samples_count := None; LineData.n_malloc_mb := None;
     LineData.n_peak_mb := None; LineData.n_avg_mb := None;
     LineData.n_growth_mb := None; LineData.n_python_fraction := None;
     LineData.n_usage_fraction := None; LineData.n_copy_mb_s := None;
     LineData.n_mallocs := None; LineData.memory_samples_count := None;
     LineData.n_gpu_percent := None; LineData.n_gpu_peak_memory_mb := None;
     LineData.n_gpu_avg_memory_mb := None; LineData.leak_score := score |}.

(** A leaks map with a negative weight for line 20. *)
Definition negative_leaks : gmap string Q := {[ "20" := (-5)%Q ]}.

(** A raw function record with no metric. *)
Definition raw_function (name : option string) (lineno : option N)
    : RawScaleneFunction :=
  {| RawFunction.name := name; RawFunction.lineno := lineno;
     RawFunction.n_cpu_percent_python := None;
     RawFunction.n_cpu_percent_c := None;
     RawFunction.n_sys_percent := None; RawFunction.n_malloc_mb := None;
     RawFunction.n_peak_mb := None; RawFunction.n_growth_mb := None;
     RawFunction.n_copy_mb_s := None |}.

(** A raw file of lines and functions, without imports or leaks. *)
Definition raw_file (lines : list RawScaleneLine)
    (functions : list RawScaleneFunction) : RawScaleneFile :=
  {| RawFile.lines := lines; RawFile.functions := functions;
     RawFile.imports := None; RawFile.leaks := None |}.

(** A raw report that carries only its files. *)
Definition raw_report (files : list (string * RawScaleneFile))
    : RawScaleneProfile :=
  {| RawProfile.alloc_samples := None; RawProfile.free_samples := None;
     RawProfile.args := None; RawProfile.elapsed_time_sec := 0;
     RawProfile.entrypoint_dir := None; RawProfile.filename := None;
     RawProfile.files := files; RawProfile.growth_rate := None |}.

(** Two files of one line each, with peaks 100 and 200. *)
Definition two_peaks_report : RawScaleneProfile :=
  raw_report
    [("a.py", raw_file [memory_line 1 None None None (Some 100%Q)] []);
     ("b.py", raw_file [memory_line 1 None None None (Some 200%Q)] [])].

(** A leaks map with a positive weight for line 10. *)
Definition positive_leaks : gmap string Q := {[ "10" := 3%Q ]}.

(** One file of one line whose peak is negative. *)
Definition negative_peak_report : RawScaleneProfile :=
  raw_report
    [("a.py", raw_file [memory_line 1 None None None (Some (-3)%Q)] [])].

(** ** The aggregates as the specification words them *)

(** The normalised lines of the files of a report, in the order the two
    loops of [parseScaleneProfile] visit them. *)
Definition lines_of_files (fs : list (string * RawScaleneFile))
    : list ScaleneLineData :=
  flat_map
    (fun entry : string * RawScaleneFile =>
       NumObj.values (FileData.lines (parseScaleneFile (snd entry))))
    fs.

Definition visited_lines (raw : RawScaleneProfile) : list ScaleneLineData :=
  lines_of_files (RawProfile.files raw).

(** The greatest of 0 and the peaks that are present. *)
Definition peak_max (ls : list ScaleneLineData) : Q :=
  fold_right
    (fun l m =>
       match LineData.n_peak_mb l with
       | Some p => Qmax p m
       | None => m
       end)
    0%Q ls.

(** The two locals the growth rate depends on, as loops of their own over
    a list of normalised lines. *)
Definition running_max (ls : list ScaleneLineData) (max : Q) : Q :=
  fold_left (fun m d => raise_max (LineData.n_peak_mb d) m) ls max.

Definition running_growth (ls : list ScaleneLineData) (total : Q) : Q :=
  fold_left (fun t d => add_if (LineData.n_growth_mb d) t) ls total.

(** ** Reading an object keyed by line number *)

Fixpoint lookup_key {V : Type} (k : N) (l : list (N * V)) : option V :=
  match l with
  | [] => None
  | (k', v) :: rest => if (k =? k')%N then Some v else lookup_key k rest
  end.

(** [o[k]] *)
Definition NumObj_get {V : Type} (k : N) (o : NumObj.t V) : option V :=
  if NumObj.is_array_index k then lookup_key k (NumObj.indexed o)
  else lookup_key k (NumObj.named o).

(** The last line of a raw list that carries the number [k]. *)
Definition last_with_lineno (k : N) (ls : list RawScaleneLine)
    : option RawScaleneLine :=
  find (fun l => (RawLine.lineno l =? k)%N) (rev ls).

(** The plain sum of a metric over a list of lines, an absent value
    counting for nothing. *)
Definition sum_present (f : ScaleneLineData -> option Q)
    (ls : list ScaleneLineData) : Q :=
  fold_right (fun d t => (default 0 (f d) + t)%Q) 0%Q ls.

(** A normalised line that carries only a number and a leak score, and a
    normalised file of such lines. *)
Definition numbered_scored_line (lineno : N) (score : Q) : ScaleneLineData :=
  {| LineData.lineno := lineno; LineData.code := "";
     LineData.n_cpu_percent_python := None; LineData.n_cpu_percent_c := None;
     LineData.n_sys_percent := None; LineData.n_core_utilization := None;
     LineData.cpu_samples_count := None; LineData.n_malloc_mb := None;
     LineData.n_peak_mb := None; LineData.n_avg_mb := None;
     LineData.n_growth_mb := None; LineData.n_python_fraction := None;
     LineData.n_usage_fraction := None; LineData.n_copy_mb_s := None;
     LineData.n_mallocs := None; LineData.memory_samples_count := None;
     LineData.n_gpu_percent := None; LineData.n_gpu_peak_memory_mb := None;
     LineData.n_gpu_avg_memory_mb := None; LineData.leak_score := Some score |}.

(** ** The viewer ([src/views/ProfileViewerPanel.ts]) *)

(** [Array.prototype.sort(compareFn)].  The sort is stable, and for a
    comparator that orders the elements consistently its result is the one
    stable arrangement in which [compareFn] of an earlier and a later
    element is never positive; insertion from the right computes it. *)
Section Sort.
Context {A : Type} (compareFn : A -> A -> Q).

Fixpoint sort_insert (x : A) (l : list A) : list A :=
  match l with
  | [] => [x]
  | y :: rest =>
      if Qle_bool (compareFn x y) 0 then x :: l else y :: sort_insert x rest
  end.

Definition js_sort (l : list A) : list A := fold_right sort_insert [] l.
End Sort.

(** The rows of [renderLeakProfile]: the loop over
    [Object.entries(profile.files)], given by [entries], that collects the
    likely leaks as [{...line, file: filePath}], and the sort by score. *)
Definition leak_compare (a b : string * ScaleneLineData) : Q :=
  (or_else (LineData.leak_score (snd b)) 0
   - or_else (LineData.leak_score (snd a)) 0)%Q.

Definition collect_leaks (entries : list (string * ScaleneFileData))
    : list (string * ScaleneLineData) :=
  flat_map
    (fun entry : string * ScaleneFileData =>
       let '(filePath, fileData) := entry in
       map (fun line => (filePath, line))
         (filter (fun line => isLikelyLeak line None)
            (NumObj.values (FileData.lines fileData))))
    entries.

Definition leak_rows (entries : list (string * ScaleneFileData))
    : list (string * ScaleneLineData) :=
  js_sort leak_compare (collect_leaks entries).

(** The badge of [renderLeak]. *)
Definition scoreBadge (leak : ScaleneLineData) : string :=
  let score := or_else (LineData.leak_score leak) 0 in
  if Qltb 150 score then "🔴 CRITICAL"
  else if Qltb 100 score then "🟠 HIGH"
  else "🟡 MEDIUM".

(** The rows of [renderFunctionProfile]: every function of every file with
    its file, sorted by CPU share. *)
Definition function_cpu (f : ScaleneFunction) : Q :=
  (or_else (Function.n_cpu_percent_python f) 0
   + or_else (Function.n_cpu_percent_c f) 0)%Q.

Definition function_compare (a b : string * ScaleneFunction) : Q :=
  let aCpu := function_cpu (snd a) in
  let bCpu := function_cpu (snd b) in
  (bCpu - aCpu)%Q.

Definition function_rows (entries : list (string * ScaleneFileData))
    : list (string * ScaleneFunction) :=
  js_sort function_compare
    (flat_map
       (fun entry : string * ScaleneFileData =>
          let '(filePath, fileData) := entry in
          map (fun func => (filePath, func)) (FileData.functions fileData))
       entries).

(** [s.replace(/c/g, r)] for a one-character pattern.  The characters
    concerned are ASCII, so the replacement acts alike on the UTF-16 units
    of the engine and on the UTF-8 bytes of a Rocq string. *)
Fixpoint replaceAll (c : ascii) (r s : string) : string :=
  match s with
  | EmptyString => EmptyString
  | String a rest =>
      if Ascii.eqb a c then r +:+ replaceAll c r rest
      else String a (replaceAll c r rest)
  end.

(** The double quote. *)
Definition dquote : ascii := "034"%char.

Definition escapeHtml (text : string) : string :=
  let div :=
    replaceAll "'" "&#039;"
      (replaceAll dquote "&quot;"
         (replaceAll ">" "&gt;"
            (replaceAll "<" "&lt;" (replaceAll "&" "&amp;" text)))) in
  div.

(** The escape of one character, for comparison with [escapeHtml]. *)
Definition escape_char (a : ascii) : string :=
  if Ascii.eqb a "&" then "&amp;"
  else if Ascii.eqb a "<" then "&lt;"
  else if Ascii.eqb a ">" then "&gt;"
  else if Ascii.eqb a dquote then "&quot;"
  else if Ascii.eqb a "'" then "&#039;"
  else String a EmptyString.

Fixpoint escape_each (s : string) : string :=
  match s with
  | EmptyString => EmptyString
  | String a rest => escape_char a +:+ escape_each rest
  end.

(** The characters of a string. *)
Fixpoint chars (s : string) : list ascii :=
  match s with
  | EmptyString => []
  | String a rest => a :: chars rest
  end.

(** Removes [p] from the front of [s], when [s] starts with it. *)
Fixpoint strip_prefix (p s : string) : option string :=
  match p, s with
  | EmptyString, _ => Some s
  | String a p', String b s' =>
      if Ascii.eqb a b then strip_prefix p' s' else None
  | String _ _, EmptyString => None
  end.

(** Reads one escaped character off the front of a string. *)
Definition unescape_head (s : string) : option (ascii * string) :=
  match strip_prefix "&amp;" s with
  | Some rest => Some ("&"%char, rest)
  | None =>
  match strip_prefix "&lt;" s with
  | Some rest => Some ("<"%char, rest)
  | None =>
  match strip_prefix "&gt;" s with
  | Some rest => Some (">"%char, rest)
  | None =>
  match strip_prefix "&quot;" s with
  | Some rest => Some (dquote, rest)
  | None =>
  match strip_prefix "&#039;" s with
  | Some rest => Some ("'"%char, rest)
  | None =>
  match s with
  | String a rest => Some (a, rest)
  | EmptyString => None
  end end end end end end.

(** ** File utilities ([src/utils/files.ts]) *)

Module SourceFile.
Record SourceFile := { path : string; lines : list string }.
End SourceFile.
Abbreviation SourceFile := SourceFile.SourceFile.

(** The line feed. *)
Definition newline : ascii := "010"%char.

(** [s.split(sep)] for a one-character separator. *)
Fixpoint split_on (sep : ascii) (s : string) : list string :=
  match s with
  | EmptyString => [EmptyString]
  | String a rest =>
      if Ascii.eqb a sep then EmptyString :: split_on sep rest
      else
        match split_on sep rest with
        | first :: others => String a first :: others
        | [] => [String a EmptyString]
        end
  end.

(** [xs[i]] for an array and a number: an element when [i] is an integer
    within the array, [undefined] ([None]) otherwise. *)
Definition array_get {A : Type} (xs : list A) (i : Q) : option A :=
  let r := Qred i in
  if (Qden r =? 1)%positive && (0 <=? Qnum r)%Z
  then nth_error xs (Z.to_nat (Qnum r))
  else None.

(** The file system and the path library are the environment of these
    functions: [workspaceFolder] is the path of the first workspace folder,
    [existsSync] and [readFileSync] are those of [fs] ([None] when the read
    throws), [isAbsolute], [join] and [dirname] those of [path]. *)
Section Files.
Variable workspaceFolder : option string.
Variable existsSync : string -> bool.
Variable readFileSync : string -> option string.
Variable isAbsolute : string -> bool.
Variable join : string -> string -> string.
Variable dirname : string -> string.

Definition readSourceFile (filePath : string) : option SourceFile :=
  let fullPath :=
    if negb (isAbsolute filePath)
    then match workspaceFolder with
         | Some folder => join folder filePath
         | None => filePath
         end
    else filePath in
  if negb (existsSync fullPath) then None
  else
    match readFileSync fullPath with
    | Some content =>
        let lines := split_on newline content in
        Some {| SourceFile.path := filePath; SourceFile.lines := lines |}
    | None => None
    end.

(** [None] is [undefined], which the source returns for a line number in
    range that is no integer. *)
Definition getSourceLine (filePath : string) (lineNum : Q) : option string :=
  match readSourceFile filePath with
  | None => Some ""
  | Some sourceFile =>
      if Qltb lineNum 1
         || Qltb (inject_Z (Z.of_nat (length (SourceFile.lines sourceFile))))
              lineNum
      then Some ""
      else array_get (SourceFile.lines sourceFile) (lineNum - 1)%Q
  end.

Definition resolveFilePath (filePath profilePath : string) : string :=
  if isAbsolute filePath then filePath
  else
    let wsHit :=
      match workspaceFolder with
      | Some folder =>
          let wsPath := join folder filePath in
          if existsSync wsPath then Some wsPath else None
      | None => None
      end in
    match wsHit with
    | Some wsPath => wsPath
    | None =>
        let profileDir := dirname profilePath in
        let relPath := join profileDir filePath in
        if existsSync relPath then relPath else filePath
    end.
End Files.

(** The invariant of the line loop when every number is an array index:
    no property is listed out of order, and each line sits under its own
    number. *)
Definition lines_in_order (o : NumObj.t ScaleneLineData) : Prop :=
  NumObj.named o = [] /\
  StronglySorted N.lt (map fst (NumObj.indexed o)) /\
  (forall k d, In (k, d) (NumObj.indexed o) -> LineData.lineno d = k).

(** The raw function records the function normaliser keeps. *)
Definition kept (raw : RawScaleneFunction) : bool :=
  match RawFunction.name raw, RawFunction.lineno raw with
  | Some nm, Some ln => truthyS nm && truthyN ln
  | _, _ => false
  end.

(** The metrics of a raw function record are those of a normalised one. *)
Definition same_metrics (raw : RawScaleneFunction) (f : ScaleneFunction)
    : Prop :=
  Function.n_cpu_percent_python f = RawFunction.n_cpu_percent_python raw /\
  Function.n_cpu_percent_c f = RawFunction.n_cpu_percent_c raw /\
  Function.n_sys_percent f = RawFunction.n_sys_percent raw /\
  Function.n_malloc_mb f = RawFunction.n_malloc_mb raw /\
  Function.n_peak_mb f = RawFunction.n_peak_mb raw /\
  Function.n_growth_mb f = RawFunction.n_growth_mb raw /\
  Function.n_copy_mb_s f = RawFunction.n_copy_mb_s raw.

(** [line.leak_score || 0], the score the viewer sorts and badges by. *)
Definition shown_score (line : ScaleneLineData) : Q :=
  or_else (LineData.leak_score line) 0.

(** Two files as the viewer receives them, with scored lines. *)
Definition scored_file (ls : list ScaleneLineData) : ScaleneFileData :=
  {| FileData.lines :=
       fold_left (fun o d => NumObj.set (LineData.lineno d) d o) ls
         NumObj.empty;
     FileData.functions := []; FileData.leaks := ∅ |}.

Definition scored_entries : list (string * ScaleneFileData) :=
  [("a.py", scored_file [numbered_scored_line 1 60; numbered_scored_line 2 10;
                         numbered_scored_line 3 120]);
   ("b.py", scored_file [numbered_scored_line 5 200;
                         numbered_scored_line 8 120])].

(** The four characters that open or close markup and attribute values. *)
Definition is_markup (c : ascii) : bool :=
  Ascii.eqb c "<" || Ascii.eqb c ">" || Ascii.eqb c dquote || Ascii.eqb c "'".

(** The five characters [escapeHtml] replaces. *)
Definition is_special (c : ascii) : bool := Ascii.eqb c "&" || is_markup c.

(** A normalised function that carries only its CPU shares, and two files
    of such functions. *)
Definition cpu_function (name : string) (lineno : N) (python c : option Q)
    : ScaleneFunction :=
  {| Function.name := name; Function.lineno := lineno;
     Function.n_cpu_percent_python := python; Function.n_cpu_percent_c := c;
     Function.n_sys_percent := None; Function.n_malloc_mb := None;
     Function.n_peak_mb := None; Function.n_growth_mb := None;
     Function.n_copy_mb_s := None |}.

Definition function_entries : list (string * ScaleneFileData) :=
  [("a.py",
    {| FileData.lines := NumObj.empty;
       FileData.functions :=
         [cpu_function "load" 3 (Some 5%Q) None;
          cpu_function "main" 9 (Some 20%Q) (Some 10%Q)];
       FileData.leaks := ∅ |});
   ("b.py",
    {| FileData.lines := NumObj.empty;
       FileData.functions := [cpu_function "save" 4 None (Some 5%Q)];
       FileData.leaks := ∅ |})].

(** [xs.join(sep)] *)
Fixpoint join_with (sep : string) (xs : list string) : string :=
  match xs with
  | [] => EmptyString
  | [x] => x
  | x :: rest => x +:+ sep +:+ join_with sep rest
  end.

(** A workspace with one source file of two lines. *)
Definition sample_content : string :=
  "x = 1" +:+ String newline "y = 2".

Definition sample_exists (p : string) : bool := String.eqb p "/ws/a.py".

Definition sample_read (p : string) : option string :=
  if String.eqb p "/ws/a.py" then Some sample_content else None.

Definition sample_isAbsolute (p : string) : bool :=
  match p with
  | String c _ => Ascii.eqb c "/"
  | EmptyString => false
  end.

Definition sample_join (a b : string) : string := a +:+ "/" +:+ b.

Definition sample_dirname (p : string) : string := "/profiles".

(** ** The parser on loosely typed input

    The raw report is the result of [JSON.parse] under a type assertion:
    nothing checks it against the interfaces.  This second embedding of
    the same parser functions keeps what the typed one excludes.  A header
    field of the report holds any JSON value; the files, a file, its lines
    and functions, and each line and function may be [undefined] or [null]
    ([None]), and reading a property of such a value, iterating it or
    calling [map] on it throws a [TypeError].  The metrics of a line or
    function that is present stay typed. *)

(** What a call does: it returns a value or throws. *)
Inductive outcome (A : Type) : Type :=
| Returned (a : A)
| Threw.
Arguments Returned {A} a.
Arguments Threw {A}.

#[global] Instance outcome_ret : MRet outcome := fun A a => Returned a.
#[global] Instance outcome_bind : MBind outcome :=
  fun A B k m => match m with Returned a => k a | Threw => Threw end.

(** A JavaScript value that [JSON.parse] can produce, or [undefined]. *)
#[local] Unset Elimination Schemes.
Inductive value : Type :=
| VUndefined
| VNull
| VBool (b : bool)
| VNum (x : Q)
| VStr (s : string)
| VArr (xs : list value)
| VObj (props : list (string * value)).
#[local] Set Elimination Schemes.

Definition truthyV (v : value) : bool :=
  match v with
  | VUndefined | VNull => false
  | VBool b => b
  | VNum x => truthy x
  | VStr s => truthyS s
  | VArr _ | VObj _ => true
  end.

(** [a || b] *)
Definition orV (a b : value) : value := if truthyV a then a else b.

(** [v?.[0]]: nothing for [undefined] and [null], the first element of an
    array, the first character of a string (its first byte here, which is
    the character when it is ASCII), the property ["0"] of an object, and
    [undefined] for a number or a boolean. *)
Definition first_of (v : value) : value :=
  match v with
  | VArr (x :: _) => x
  | VStr (String c _) => VStr (String c EmptyString)
  | VObj props =>
      match find (fun kv => String.eqb (fst kv) "0") props with
      | Some kv => snd kv
      | None => VUndefined
      end
  | _ => VUndefined
  end.

Module Doc.
Record File := {
  lines : option (list (option RawScaleneLine));
  functions : option (list (option RawScaleneFunction));
  imports : option (list string);
  leaks : option (gmap string Q)
}.

Record Report := {
  alloc_samples : value;
  free_samples : value;
  args : value;
  elapsed_time_sec : value;
  entrypoint_dir : value;
  filename : value;
  files : option (list (string * option File));
  growth_rate : value
}.
End Doc.

Module Loose.
Record Profile := {
  program : value;
  args : value;
  elapsed_time : value;
  entrypoint_dir : value;
  max_memory_mb : Q;
  total_memory_growth_mb : Q;
  growth_rate : Q;
  total_cpu_percent_python : Q;
  total_cpu_percent_c : Q;
  total_sys_percent : Q;
  alloc_samples : value;
  free_samples : value;
  files : gmap string ScaleneFileData
}.
End Loose.

(** [parseScaleneLine]: the first property read of the line throws when
    the line is [undefined] or [null]. *)
Definition parseScaleneLine_loose (raw : option RawScaleneLine)
    (leaks : option (gmap string Q)) : outcome ScaleneLineData :=
  match raw with
  | Some line => Returned (parseScaleneLine line leaks)
  | None => Threw
  end.

(** [parseScaleneFunction]: [raw.name] throws in the same way. *)
Definition parseScaleneFunction_loose (raw : option RawScaleneFunction)
    : outcome (option ScaleneFunction) :=
  match raw with
  | Some f => Returned (parseScaleneFunction f)
  | None => Threw
  end.

(** The loop over [raw.lines], line by line. *)
Fixpoint add_lines_loose (leaks : option (gmap string Q))
    (ls : list (option RawScaleneLine)) (lines : NumObj.t ScaleneLineData)
    : outcome (NumObj.t ScaleneLineData) :=
  match ls with
  | [] => Returned lines
  | line :: rest =>
      lineData ← parseScaleneLine_loose line leaks;
      match line with
      | Some l =>
          add_lines_loose leaks rest
            (NumObj.set (RawLine.lineno l) lineData lines)
      | None => Threw
      end
  end.

(** [raw.functions.map(parseScaleneFunction)], element by element. *)
Fixpoint map_functions_loose (fs : list (option RawScaleneFunction))
    : outcome (list (option ScaleneFunction)) :=
  match fs with
  | [] => Returned []
  | f :: rest =>
      parsed ← parseScaleneFunction_loose f;
      others ← map_functions_loose rest;
      Returned (parsed :: others)
  end.

Definition parseScaleneFile_loose (raw : option Doc.File)
    : outcome ScaleneFileData :=
  match raw with
  | None => Threw
  | Some raw =>
      match Doc.lines raw with
      | None => Threw
      | Some ls =>
          lines ← add_lines_loose (Doc.leaks raw) ls NumObj.empty;
          match Doc.functions raw with
          | None => Threw
          | Some fs =>
              mapped ← map_functions_loose fs;
              Returned
                {| FileData.lines := lines;
                   FileData.functions := omap id mapped;
                   FileData.leaks := default ∅ (Doc.leaks raw) |}
          end
      end
  end.

(** The body of the loop over [Object.entries(raw.files)]. *)
Definition aggregate_file_loose (st : Locals)
    (entry : string * option Doc.File) : outcome Locals :=
  let '(filePath, fileData) := entry in
  normalizedFile ← parseScaleneFile_loose fileData;
  let st :=
    {| maxMemoryMb := maxMemoryMb st;
       totalMemoryGrowthMb := totalMemoryGrowthMb st;
       totalCpuPython := totalCpuPython st;
       totalCpuC := totalCpuC st;
       totalSys := totalSys st;
       files := assign_file filePath normalizedFile (files st) |} in
  Returned
    (fold_left aggregate_line
       (NumObj.values (FileData.lines normalizedFile)) st).

Fixpoint aggregate_files_loose (entries : list (string * option Doc.File))
    (st : Locals) : outcome Locals :=
  match entries with
  | [] => Returned st
  | entry :: rest =>
      st ← aggregate_file_loose st entry;
      aggregate_files_loose rest st
  end.

Definition parseScaleneProfile_loose (raw : Doc.Report)
    : outcome Loose.Profile :=
  match Doc.files raw with
  | None => Threw
  | Some entries =>
      st ← aggregate_files_loose entries initial;
      let growthRate :=
        if Qltb 0 (maxMemoryMb st)
        then (totalMemoryGrowthMb st / maxMemoryMb st * 100)%Q
        else 0%Q in
      Returned
        {| Loose.program :=
             orV (orV (first_of (Doc.args raw)) (Doc.filename raw))
               (VStr "Unknown");
           Loose.args := orV (Doc.args raw) (VArr []);
           Loose.elapsed_time := Doc.elapsed_time_sec raw;
           Loose.entrypoint_dir := orV (Doc.entrypoint_dir raw) (VStr "");
           Loose.max_memory_mb := maxMemoryMb st;
           Loose.total_memory_growth_mb := totalMemoryGrowthMb st;
           Loose.growth_rate := growthRate;
           Loose.total_cpu_percent_python := totalCpuPython st;
           Loose.total_cpu_percent_c := totalCpuC st;
           Loose.total_sys_percent := totalSys st;
           Loose.alloc_samples := orV (Doc.alloc_samples raw) (VNum 0);
           Loose.free_samples := orV (Doc.free_samples raw) (VNum 0);
           Loose.files := files st |}
  end.

(** A report that matches the schema, as a loosely typed document, and a
    typed normalised report as a loosely typed one. *)
Definition of_number (v : option Q) : value :=
  match v with Some x => VNum x | None => VUndefined end.

Definition of_string (v : option string) : value :=
  match v with Some s => VStr s | None => VUndefined end.

Definition of_strings (v : option (list string)) : value :=
  match v with Some l => VArr (map VStr l) | None => VUndefined end.

Definition doc_of_file (file : RawScaleneFile) : Doc.File :=
  {| Doc.lines := Some (map Some (RawFile.lines file));
     Doc.functions := Some (map Some (RawFile.functions file));
     Doc.imports := RawFile.imports file;
     Doc.leaks := RawFile.leaks file |}.

Definition doc_of_report (raw : RawScaleneProfile) : Doc.Report :=
  {| Doc.alloc_samples := of_number (RawProfile.alloc_samples raw);
     Doc.free_samples := of_number (RawProfile.free_samples raw);
     Doc.args := of_strings (RawProfile.args raw);
     Doc.elapsed_time_sec := VNum (RawProfile.elapsed_time_sec raw);
     Doc.entrypoint_dir := of_string (RawProfile.entrypoint_dir raw);
     Doc.filename := of_string (RawProfile.filename raw);
     Doc.files :=
       Some (map (fun entry : string * RawScaleneFile =>
                    (fst entry, Some (doc_of_file (snd entry))))
               (RawProfile.files raw));
     Doc.growth_rate := of_number (RawProfile.growth_rate raw) |}.

Definition loose_of_profile (r : ScaleneProfile) : Loose.Profile :=
  {| Loose.program := VStr (Profile.program r);
     Loose.args := VArr (map VStr (Profile.args r));
     Loose.elapsed_time := VNum (Profile.elapsed_time r);
     Loose.entrypoint_dir := VStr (Profile.entrypoint_dir r);
     Loose.max_memory_mb := Profile.max_memory_mb r;
     Loose.total_memory_growth_mb := Profile.total_memory_growth_mb r;
     Loose.growth_rate := Profile.growth_rate r;
     Loose.total_cpu_percent_python := Profile.total_cpu_percent_python r;
     Loose.total_cpu_percent_c := Profile.total_cpu_percent_c r;
     Loose.total_sys_percent := Profile.total_sys_percent r;
     Loose.alloc_samples := VNum (Profile.alloc_samples r);
     Loose.free_samples := VNum (Profile.free_samples r);
     Loose.files := Profile.files r |}.

(** The structure the parser reads without a guard: the files, each file,
    its lines and functions, and each line and function are present. *)
Definition file_structured (file : option Doc.File) : Prop :=
  exists f ls fs,
    file = Some f /\ Doc.lines f = Some ls /\ Doc.functions f = Some fs /\
    Forall is_Some ls /\ Forall is_Some fs.

Definition structured (raw : Doc.Report) : Prop :=
  exists entries,
    Doc.files raw = Some entries /\
    Forall (fun entry => file_structured (snd entry)) entries.

(** [undefined] or [null]. *)
Definition nullish (v : value) : Prop := v = VUndefined \/ v = VNull.

(** A report without files whose [args] is a string and whose
    [alloc_samples] is a string, where the schema has an array of strings
    and a number. *)
Definition malformed_report : Doc.Report :=
  {| Doc.alloc_samples := VStr "many"; Doc.free_samples := VUndefined;
     Doc.args := VStr "prog.py"; Doc.elapsed_time_sec := VNum 1;
     Doc.entrypoint_dir := VUndefined; Doc.filename := VStr "run.py";
     Doc.files := Some []; Doc.growth_rate := VUndefined |}.

(** [s.endsWith(suffix)] *)
Definition ends_with (suffix s : string) : bool :=
  match strip_prefix (String.rev suffix) (String.rev s) with
  | Some _ => true
  | None => false
  end.

Module Candidate.
Record Candidate := { name : string; path : string; time : Z }.
End Candidate.
Abbreviation Candidate := Candidate.Candidate.

(** [findLatestProfile].  [outputDir] is what [getOutputDir()] returned.
    [readdirSync] lists a directory and [statSync] gives
    [fs.statSync(p).mtime.getTime()], in milliseconds; either can throw,
    and [findLatestProfile] catches nothing. *)
Section Latest.
Variable outputDir : string.
Variable existsSync : string -> bool.
Variable readdirSync : string -> outcome (list string).
Variable statSync : string -> outcome Z.
Variable join : string -> string -> string.

Definition candidate_compare (a b : Candidate) : Q :=
  inject_Z (Candidate.time b - Candidate.time a).

(** The [map] over the names that passed the filter, name by name. *)
Fixpoint stat_all (names : list string) : outcome (list Candidate) :=
  match names with
  | [] => Returned []
  | f :: rest =>
      time ← statSync (join outputDir f);
      others ← stat_all rest;
      Returned
        ({| Candidate.name := f;
            Candidate.path := join outputDir f;
            Candidate.time := time |} :: others)
  end.

Definition findLatestProfile : outcome (option string) :=
  if negb (existsSync outputDir) then Returned None
  else
    names ← readdirSync outputDir;
    mapped ← stat_all (List.filter (fun f => ends_with ".json" f) names);
    let files := js_sort candidate_compare mapped in
    Returned
      match files with
      | first :: _ => Some (Candidate.path first)
      | [] => None
      end.
End Latest.

(** A profile directory with two profiles and another file, and one with
    a profile that cannot be examined. *)
Definition sample_listing (dir : string) : outcome (list string) :=
  Returned ["old.json"; "notes.txt"; "new.json"].

Definition sample_stat (p : string) : outcome Z :=
  if String.eqb p "/out/new.json" then Returned 2000%Z else Returned 1000%Z.

Definition broken_stat (p : string) : outcome Z :=
  if String.eqb p "/out/new.json" then Threw else Returned 1000%Z.

(** A normalised function viewed as a raw record. *)
Definition raw_of_function (f : ScaleneFunction) : RawScaleneFunction :=
  {| RawFunction.name := Some (Function.name f);
     RawFunction.lineno := Some (Function.lineno f);
     RawFunction.n_cpu_percent_python := Function.n_cpu_percent_python f;
     RawFunction.n_cpu_percent_c := Function.n_cpu_percent_c f;
     RawFunction.n_sys_percent := Function.n_sys_percent f;
     RawFunction.n_malloc_mb := Function.n_malloc_mb f;
     RawFunction.n_peak_mb := Function.n_peak_mb f;
     RawFunction.n_growth_mb := Function.n_growth_mb f;
     RawFunction.n_copy_mb_s := Function.n_copy_mb_s f |}.

(** * Properties *)

(** ** Reflection of the boolean tests *)

Lemma Qltb_lt (x y : Q) : Qltb x y = true <-> (x < y)%Q.
Proof.
  unfold Qltb. rewrite negb_true_iff, <- not_true_iff_false, Qle_bool_iff.
  split; [apply Qnot_le_lt | apply Qlt_not_le].
Qed.

Lemma Qltb_ge (x y : Q) : Qltb x y = false <-> (y <= x)%Q.
Proof.
  unfold Qltb. rewrite negb_false_iff. apply Qle_bool_iff.
Qed.

Lemma truthy_true (x : Q) : truthy x = true <-> ~ (x == 0)%Q.
Proof.
  unfold truthy. rewrite negb_true_iff, <- not_true_iff_false, Qeq_bool_iff.
  reflexivity.
Qed.

Lemma truthy_false (x : Q) : truthy x = false <-> (x == 0)%Q.
Proof.
  unfold truthy. rewrite negb_false_iff. apply Qeq_bool_iff.
Qed.

(** [v && v > 0] holds exactly for a present, strictly positive value. *)
Lemma positive_spec (v : option Q) : positive v = present_gt0 v.
Proof.
  destruct v as [x|]; [|reflexivity]. unfold positive; simpl.
  destruct (Qlt_le_dec 0 x) as [H|H].
  - apply andb_true_iff. split.
    + apply truthy_true. lra.
    + apply Qltb_lt; assumption.
  - apply andb_false_iff. right. apply Qltb_ge; assumption.
Qed.

Lemma positive_Some (x : Q) : positive (Some x) = true <-> (0 < x)%Q.
Proof.
  rewrite positive_spec. simpl. destruct (Qlt_le_dec 0 x); split; intros;
    try reflexivity; try assumption; try discriminate; lra.
Qed.

Ltac reflect_tests :=
  repeat match goal with
  | H : truthy _ = true |- _ => apply truthy_true in H
  | H : truthy _ = false |- _ => apply truthy_false in H
  | H : Qltb _ _ = true |- _ => apply Qltb_lt in H
  | H : Qltb _ _ = false |- _ => apply Qltb_ge in H
  end.

Ltac split_tests :=
  repeat (match goal with
          | |- context [truthy ?x] => destruct (truthy x) eqn:?
          | |- context [Qltb ?x ?y] => destruct (Qltb x y) eqn:?
          | |- context [Qlt_le_dec ?x ?y] => destruct (Qlt_le_dec x y)
          end; simpl).

(** ** Leak score *)

(** The code's chain of guarded additions computes the specification's sum
    of four terms. *)
Lemma calculateLeakScore_spec (line : RawScaleneLine)
    (leaks : option (gmap string Q)) :
  (calculateLeakScore line leaks == leakScore_spec line leaks)%Q.
Proof.
  unfold calculateLeakScore, leakScore_spec, leak_weight, positive, and_then,
    present_gt0, present_below.
  destruct line as [ln txt ? ? ? ? ? mallocMb ? ? growthMb ? usage
                    ? ? ? ? ? ? ? ? ? ?]; simpl.
  destruct leaks as [m|]; [destruct (m !! js_String ln) as [w|]|];
    destruct growthMb as [g|], mallocMb as [a|], usage as [u|]; simpl;
    split_tests; reflect_tests; lra.
Qed.

(** C1.  The leakScore of the normalised line is the sum of the leaks-map
    weight found under the string form of the line number (if any),
    growthMb * 10 when growthMb is present and positive, mallocMb * 5 when
    mallocMb and growthMb are both present and positive, and a flat 20 when
    usageFraction is present and below 0.3 and growthMb is present and
    positive.  Line 10 of the scenario scores 80 and a line without memory
    fields scores 0. *)
Theorem leakScore_is_weighted_sum :
  (forall (line : RawScaleneLine) (leaks : option (gmap string Q)),
      exists s : Q,
        LineData.leak_score (parseScaleneLine line leaks) = Some s /\
        (s == leakScore_spec line leaks)%Q) /\
  (exists s : Q,
      LineData.leak_score (parseScaleneLine line10 None) = Some s /\
      (s == 80)%Q) /\
  (forall (lineno : N),
      exists s : Q,
        LineData.leak_score (parseScaleneLine (bare_line lineno) None)
        = Some s /\ (s == 0)%Q).
Proof.
  split; [|split].
  - intros line leaks. exists (calculateLeakScore line leaks).
    split; [reflexivity | apply calculateLeakScore_spec].
  - eexists. split; [reflexivity | vm_compute; reflexivity].
  - intros lineno. eexists. split; [reflexivity | vm_compute; reflexivity].
Qed.

(** Every term of the specification's sum but the leaks-map weight is
    non-negative. *)
Lemma leakScore_spec_lower_bound (line : RawScaleneLine)
    (leaks : option (gmap string Q)) :
  (leak_weight (RawLine.lineno line) leaks <= leakScore_spec line leaks)%Q.
Proof.
  unfold leakScore_spec, present_gt0, present_below.
  destruct line as [ln txt ? ? ? ? ? mallocMb ? ? growthMb ? usage
                    ? ? ? ? ? ? ? ? ? ?]; simpl.
  destruct growthMb as [g|], mallocMb as [a|], usage as [u|]; simpl;
    split_tests; lra.
Qed.

(** C2, as the code has it.  The leakScore is non-negative whenever the
    leaks map holds no weight for the line or a non-negative one, whatever
    the signs of the line's metric fields. *)
Theorem leakScore_nonneg_for_nonneg_weight (line : RawScaleneLine)
    (leaks : option (gmap string Q)) :
  (0 <= leak_weight (RawLine.lineno line) leaks)%Q ->
  exists s : Q,
    LineData.leak_score (parseScaleneLine line leaks) = Some s /\ (0 <= s)%Q.
Proof.
  intros Hw. exists (calculateLeakScore line leaks). split; [reflexivity|].
  rewrite calculateLeakScore_spec.
  pose proof (leakScore_spec_lower_bound line leaks). lra.
Qed.

(** C8.  Of two lines that differ in growthMb only, both positive, the one
    with the larger growthMb has the larger or equal leakScore under the
    same leaks map. *)
Theorem leakScore_monotone_in_growth (line : RawScaleneLine) (g1 g2 : Q)
    (leaks : option (gmap string Q)) :
  RawLine.n_growth_mb line = Some g1 ->
  (0 < g1)%Q -> (g1 < g2)%Q ->
  exists s1 s2 : Q,
    LineData.leak_score (parseScaleneLine line leaks) = Some s1 /\
    LineData.leak_score
      (parseScaleneLine (with_growth line (Some g2)) leaks) = Some s2 /\
    (s1 <= s2)%Q.
Proof.
  intros Hg H1 H2.
  exists (calculateLeakScore line leaks),
    (calculateLeakScore (with_growth line (Some g2)) leaks).
  split; [reflexivity|]. split; [reflexivity|].
  rewrite !calculateLeakScore_spec.
  unfold leakScore_spec, present_gt0, present_below.
  destruct line as [ln txt ? ? ? ? ? mallocMb ? ? growthMb ? usage
                    ? ? ? ? ? ? ? ? ? ?]; simpl in *.
  subst growthMb.
  destruct mallocMb as [a|], usage as [u|]; simpl; split_tests; lra.
Qed.

(** ** Leak classifier *)

(** C3.  The classifier answers true exactly when the leakScore, taken as 0
    when absent, is strictly above the threshold (50 when none is given):
    a score equal to the threshold is not a leak, a score above it by any
    positive amount is. *)
Theorem isLikelyLeak_strict_threshold (line : ScaleneLineData)
    (threshold : option Q) :
  let score := default 0%Q (LineData.leak_score line) in
  let limit := default 50%Q threshold in
  (isLikelyLeak line threshold = true <-> (limit < score)%Q) /\
  ((score == limit)%Q -> isLikelyLeak line threshold = false) /\
  (forall eps : Q,
      (0 < eps)%Q -> (score == limit + eps)%Q ->
      isLikelyLeak line threshold = true).
Proof.
  intros score limit.
  assert (Hiff : isLikelyLeak line threshold = true <-> (limit < score)%Q).
  { unfold isLikelyLeak, or_else. fold limit. rewrite Qltb_lt.
    subst score. destruct (LineData.leak_score line) as [s|]; simpl;
      [|reflexivity].
    destruct (truthy s) eqn:Hs; [reflexivity|].
    apply truthy_false in Hs. rewrite Hs. reflexivity. }
  split; [exact Hiff|]. split.
  - intros Heq. apply not_true_iff_false. rewrite Hiff. lra.
  - intros eps Heps Heq. apply Hiff. lra.
Qed.

(** ** Function normaliser *)

Lemma truthyS_true (s : string) : truthyS s = true <-> s <> "".
Proof. destruct s; simpl; split; congruence. Qed.

Lemma truthyN_true (n : N) : truthyN n = true <-> n <> 0%N.
Proof.
  unfold truthyN. rewrite negb_true_iff, N.eqb_neq. reflexivity.
Qed.

(** A record is kept exactly when its name and line number are truthy. *)
Lemma parseScaleneFunction_Some (raw : RawScaleneFunction) :
  is_Some (parseScaleneFunction raw) <->
  exists nm ln,
    RawFunction.name raw = Some nm /\ nm <> "" /\
    RawFunction.lineno raw = Some ln /\ ln <> 0%N.
Proof.
  unfold parseScaleneFunction.
  destruct (RawFunction.name raw) as [nm|], (RawFunction.lineno raw) as [ln|];
    try (split; [intros [? ?]; discriminate
                | intros (? & ? & ? & ? & ? & ?); discriminate]).
  destruct (truthyS nm) eqn:Hn, (truthyN ln) eqn:Hl; simpl; split;
    try (intros [? ?]; discriminate); intros H.
  - exists nm, ln. apply truthyS_true in Hn. apply truthyN_true in Hl. auto.
  - eexists; reflexivity.
  - destruct H as (? & ? & [= <-] & ? & [= <-] & Hz).
    apply truthyN_true in Hz. congruence.
  - destruct H as (? & ? & [= <-] & Hz & _).
    apply truthyS_true in Hz. congruence.
  - destruct H as (? & ? & [= <-] & Hz & _).
    apply truthyS_true in Hz. congruence.
Qed.

(** C5, as the code has it.  A raw function record is rejected exactly
    when its name is absent or empty or its line number is absent or 0; a
    record with a non-empty name and a non-zero line number is kept, with
    that name and line number; and a list of one such record and one record
    without a line number normalises to a list of length 1. *)
Theorem parseScaleneFunction_rejects_falsy (raw : RawScaleneFunction) :
  (parseScaleneFunction raw = None <->
   RawFunction.name raw = None \/ RawFunction.name raw = Some "" \/
   RawFunction.lineno raw = None \/ RawFunction.lineno raw = Some 0%N) /\
  (forall nm ln,
      RawFunction.name raw = Some nm -> nm <> "" ->
      RawFunction.lineno raw = Some ln -> ln <> 0%N ->
      exists f,
        parseScaleneFunction raw = Some f /\
        Function.name f = nm /\ Function.lineno f = ln) /\
  (forall nm ln lines (other : RawScaleneFunction),
      RawFunction.name raw = Some nm -> nm <> "" ->
      RawFunction.lineno raw = Some ln -> ln <> 0%N ->
      RawFunction.lineno other = None ->
      length (FileData.functions (parseScaleneFile (raw_file lines [raw; other])))
      = 1%nat).
Proof.
  split; [|split].
  - rewrite eq_None_not_Some, parseScaleneFunction_Some. split.
    + intros Hno.
      destruct (RawFunction.name raw) as [nm|]; [|auto].
      destruct (RawFunction.lineno raw) as [ln|]; [|auto].
      destruct (decide (nm = "")) as [->|Hn]; [auto|].
      destruct (decide (ln = 0%N)) as [->|Hl]; [auto|].
      exfalso. apply Hno. exists nm, ln. auto.
    + intros Hcase (nm & ln & Hn & Hne & Hl & Hlz).
      rewrite Hn, Hl in Hcase.
      destruct Hcase as [?|[?|[?|?]]]; congruence.
  - intros nm ln Hn Hne Hl Hlz. unfold parseScaleneFunction.
    rewrite Hn, Hl.
    apply truthyS_true in Hne. apply truthyN_true in Hlz.
    rewrite Hne, Hlz. simpl. eexists. split; [reflexivity|]. split; reflexivity.
  - intros nm ln lines other Hn Hne Hl Hlz Hother.
    unfold parseScaleneFile, raw_file; simpl.
    assert (Hkept : is_Some (parseScaleneFunction raw)).
    { apply parseScaleneFunction_Some. exists nm, ln. auto. }
    destruct Hkept as [f ->].
    assert (Hdropped : parseScaleneFunction other = None).
    { unfold parseScaleneFunction. rewrite Hother.
      destruct (RawFunction.name other); reflexivity. }
    rewrite Hdropped. reflexivity.
Qed.

(** ** Objects keyed by line number: what an assignment keeps *)

Module NumObjFacts.
Import NumObj.

Section Facts.
Context {V : Type}.
Implicit Types (k : N) (v : V) (l : list (N * V)) (o : NumObj.t V).

Lemma put_sorted_new k v l : In (k, v) (put_sorted k v l).
Proof.
  induction l as [|[k' v'] rest IH]; simpl; [auto|].
  destruct (k <? k')%N; [simpl; auto|].
  destruct (k =? k')%N; simpl; auto.
Qed.

Lemma put_sorted_old k v k' v' l :
  k <> k' -> In (k, v) l -> In (k, v) (put_sorted k' v' l).
Proof.
  intros Hne. induction l as [|[k0 v0] rest IH]; simpl; [tauto|].
  intros [Heq|Hin].
  - inversion Heq; subst. destruct (k' <? k)%N; [simpl; auto|].
    destruct (k' =? k)%N eqn:E; [apply N.eqb_eq in E; congruence|].
    simpl; auto.
  - destruct (k' <? k0)%N; [simpl; auto|].
    destruct (k' =? k0)%N; simpl; auto.
Qed.

Lemma put_sorted_inv k v k' v' l :
  In (k, v) (put_sorted k' v' l) -> (k, v) = (k', v') \/ In (k, v) l.
Proof.
  induction l as [|[k0 v0] rest IH]; simpl.
  - intros [H|[]]; auto.
  - destruct (k' <? k0)%N; [simpl; intuition auto|].
    destruct (k' =? k0)%N; simpl; intuition auto.
Qed.

Lemma put_last_new k v l : In (k, v) (put_last k v l).
Proof.
  induction l as [|[k' v'] rest IH]; simpl; [auto|].
  destruct (k =? k')%N; simpl; auto.
Qed.

Lemma put_last_old k v k' v' l :
  k <> k' -> In (k, v) l -> In (k, v) (put_last k' v' l).
Proof.
  intros Hne. induction l as [|[k0 v0] rest IH]; simpl; [tauto|].
  intros [Heq|Hin].
  - inversion Heq; subst.
    destruct (k' =? k)%N eqn:E; [apply N.eqb_eq in E; congruence|].
    simpl; auto.
  - destruct (k' =? k0)%N; simpl; auto.
Qed.

Lemma put_last_inv k v k' v' l :
  In (k, v) (put_last k' v' l) -> (k, v) = (k', v') \/ In (k, v) l.
Proof.
  induction l as [|[k0 v0] rest IH]; simpl.
  - intros [H|[]]; auto.
  - destruct (k' =? k0)%N; simpl; intuition auto.
Qed.

(** After [o[k] = v] the object lists [v] under [k]. *)
Lemma set_new k v o : In (k, v) (entries (set k v o)).
Proof.
  unfold entries, set. destruct (is_array_index k); simpl;
    apply in_app_iff; [left; apply put_sorted_new
                      | right; apply put_last_new].
Qed.

(** An assignment keeps the properties under the other keys. *)
Lemma set_old k v k' v' o :
  k <> k' -> In (k, v) (entries o) -> In (k, v) (entries (set k' v' o)).
Proof.
  unfold entries, set. intros Hne [H|H]%in_app_iff;
    destruct (is_array_index k'); simpl; apply in_app_iff;
    auto using put_sorted_old, put_last_old.
Qed.

(** An assignment creates nothing but the property it assigns. *)
Lemma set_inv k v k' v' o :
  In (k, v) (entries (set k' v' o)) ->
  (k, v) = (k', v') \/ In (k, v) (entries o).
Proof.
  unfold entries, set. destruct (is_array_index k'); simpl;
    intros [H|H]%in_app_iff; rewrite in_app_iff;
    try (apply put_sorted_inv in H); try (apply put_last_inv in H);
    tauto.
Qed.
End Facts.
End NumObjFacts.

(** ** What the file normaliser keeps of the raw lines *)

(** Each normalised line is the image of a raw line of the file. *)
Lemma add_lines_inv (leaks : option (gmap string Q))
    (ls : list RawScaleneLine) (o : NumObj.t ScaleneLineData) k d :
  In (k, d) (NumObj.entries (fold_left (add_line leaks) ls o)) ->
  In (k, d) (NumObj.entries o) \/
  exists l, In l ls /\ d = parseScaleneLine l leaks.
Proof.
  revert o. induction ls as [|l ls IH]; simpl; intros o H; [auto|].
  apply IH in H as [H|(l' & Hin & ->)].
  - unfold add_line in H. apply NumObjFacts.set_inv in H as [Heq|H]; [|auto].
    inversion Heq; subst. right. exists l. auto.
  - right. exists l'. auto.
Qed.

(** The lines that follow do not touch the properties under other keys. *)
Lemma add_lines_old (leaks : option (gmap string Q))
    (ls : list RawScaleneLine) (o : NumObj.t ScaleneLineData) k d :
  (forall l, In l ls -> RawLine.lineno l <> k) ->
  In (k, d) (NumObj.entries o) ->
  In (k, d) (NumObj.entries (fold_left (add_line leaks) ls o)).
Proof.
  revert o. induction ls as [|l ls IH]; simpl; intros o Hfresh H; [auto|].
  apply IH; [intros l' Hl'; apply Hfresh; auto|].
  unfold add_line. apply NumObjFacts.set_old; [|assumption].
  intros ->. apply (Hfresh l); auto.
Qed.

(** When the line numbers of a file are pairwise distinct, every raw line
    is listed, normalised, under its number. *)
Lemma add_lines_keeps (leaks : option (gmap string Q))
    (ls : list RawScaleneLine) (o : NumObj.t ScaleneLineData) l :
  NoDup (map RawLine.lineno ls) ->
  In l ls ->
  In (RawLine.lineno l, parseScaleneLine l leaks)
     (NumObj.entries (fold_left (add_line leaks) ls o)).
Proof.
  revert o. induction ls as [|l0 ls IH]; simpl; intros o Hnd Hin; [tauto|].
  inversion Hnd as [|? ? Hfresh Hnd']; subst.
  destruct Hin as [->|Hin]; [|apply IH; assumption].
  apply add_lines_old.
  - intros l' Hl' Heq. apply Hfresh. rewrite <- Heq.
    apply list_elem_of_In, in_map. assumption.
  - unfold add_line. apply NumObjFacts.set_new.
Qed.

(** The two facts, on the values of a normalised file. *)
Lemma parseScaleneFile_line_inv (file : RawScaleneFile) (d : ScaleneLineData) :
  In d (NumObj.values (FileData.lines (parseScaleneFile file))) ->
  exists l,
    In l (RawFile.lines file) /\ d = parseScaleneLine l (RawFile.leaks file).
Proof.
  unfold NumObj.values. intros [[k d'] [Hd Hin]]%in_map_iff.
  simpl in Hd; subst d'. unfold parseScaleneFile in Hin; simpl in Hin.
  apply add_lines_inv in Hin as [[]%in_app_iff|H]; simpl in *; tauto.
Qed.

Lemma parseScaleneFile_line_kept (file : RawScaleneFile) (l : RawScaleneLine) :
  NoDup (map RawLine.lineno (RawFile.lines file)) ->
  In l (RawFile.lines file) ->
  In (parseScaleneLine l (RawFile.leaks file))
     (NumObj.values (FileData.lines (parseScaleneFile file))).
Proof.
  intros Hnd Hin. unfold NumObj.values. apply in_map_iff.
  exists (RawLine.lineno l, parseScaleneLine l (RawFile.leaks file)).
  split; [reflexivity|].
  unfold parseScaleneFile; simpl. apply add_lines_keeps; assumption.
Qed.

(** ** The aggregation loops *)

Lemma aggregate_lines_max (ls : list ScaleneLineData) (st : Locals) :
  maxMemoryMb (fold_left aggregate_line ls st) = running_max ls (maxMemoryMb st).
Proof.
  unfold running_max. revert st.
  induction ls as [|d ls IH]; simpl; intros st; [reflexivity|].
  rewrite IH. reflexivity.
Qed.

Lemma aggregate_lines_growth (ls : list ScaleneLineData) (st : Locals) :
  totalMemoryGrowthMb (fold_left aggregate_line ls st)
  = running_growth ls (totalMemoryGrowthMb st).
Proof.
  unfold running_growth. revert st.
  induction ls as [|d ls IH]; simpl; intros st; [reflexivity|].
  rewrite IH. reflexivity.
Qed.

Lemma running_max_app (xs ys : list ScaleneLineData) (m : Q) :
  running_max (xs ++ ys) m = running_max ys (running_max xs m).
Proof. unfold running_max. apply fold_left_app. Qed.

Lemma running_growth_app (xs ys : list ScaleneLineData) (t : Q) :
  running_growth (xs ++ ys) t = running_growth ys (running_growth xs t).
Proof. unfold running_growth. apply fold_left_app. Qed.

Lemma aggregate_files_max (fs : list (string * RawScaleneFile)) (st : Locals) :
  maxMemoryMb (fold_left aggregate_file fs st)
  = running_max (lines_of_files fs) (maxMemoryMb st).
Proof.
  revert st. induction fs as [|[path file] fs IH]; simpl; intros st;
    [reflexivity|].
  rewrite IH, running_max_app, aggregate_lines_max. reflexivity.
Qed.

Lemma aggregate_files_growth (fs : list (string * RawScaleneFile))
    (st : Locals) :
  totalMemoryGrowthMb (fold_left aggregate_file fs st)
  = running_growth (lines_of_files fs) (totalMemoryGrowthMb st).
Proof.
  revert st. induction fs as [|[path file] fs IH]; simpl; intros st;
    [reflexivity|].
  rewrite IH, running_growth_app, aggregate_lines_growth. reflexivity.
Qed.

(** The reported peak is the running maximum over the visited lines,
    started at 0. *)
Lemma max_memory_mb_running (raw : RawScaleneProfile) :
  Profile.max_memory_mb (parseScaleneProfile raw)
  = running_max (visited_lines raw) 0.
Proof. unfold parseScaleneProfile; simpl. apply aggregate_files_max. Qed.

(** ** The running maximum *)

Lemma raise_max_ge (p : option Q) (m : Q) : (m <= raise_max p m)%Q.
Proof.
  unfold raise_max. destruct p as [x|]; [|lra].
  split_tests; reflect_tests; lra.
Qed.

Lemma running_max_ge_init (ls : list ScaleneLineData) (m : Q) :
  (m <= running_max ls m)%Q.
Proof.
  unfold running_max. revert m.
  induction ls as [|d ls IH]; simpl; intros m; [lra|].
  eapply Qle_trans; [apply raise_max_ge | apply IH].
Qed.

Lemma running_max_ge_peak (ls : list ScaleneLineData) (m : Q) d x :
  (0 <= m)%Q -> In d ls -> LineData.n_peak_mb d = Some x ->
  (x <= running_max ls m)%Q.
Proof.
  unfold running_max. revert m.
  induction ls as [|d' ls IH]; simpl; intros m Hm Hin Hx; [tauto|].
  destruct Hin as [->|Hin].
  - eapply Qle_trans; [|apply running_max_ge_init].
    rewrite Hx. unfold raise_max. split_tests; reflect_tests; lra.
  - apply IH; [|assumption|assumption].
    eapply Qle_trans; [exact Hm | apply raise_max_ge].
Qed.

Lemma running_max_attained (ls : list ScaleneLineData) (m : Q) :
  running_max ls m = m \/
  exists d, In d ls /\ LineData.n_peak_mb d = Some (running_max ls m).
Proof.
  unfold running_max. revert m.
  induction ls as [|d ls IH]; simpl; intros m; [auto|].
  destruct (IH (raise_max (LineData.n_peak_mb d) m)) as [Heq|(d' & Hin & Hd')].
  - rewrite Heq. unfold raise_max.
    destruct (LineData.n_peak_mb d) as [x|] eqn:Hx; [|auto].
    destruct (truthy x && Qltb m x); [|auto].
    right. exists d. auto.
  - right. exists d'. auto.
Qed.

Lemma running_max_floor (ls : list ScaleneLineData) (m : Q) :
  (forall d x, In d ls -> LineData.n_peak_mb d = Some x -> (x <= m)%Q) ->
  running_max ls m = m.
Proof.
  unfold running_max.
  induction ls as [|d ls IH]; simpl; intros Hle; [reflexivity|].
  assert (Hstep : raise_max (LineData.n_peak_mb d) m = m).
  { unfold raise_max. destruct (LineData.n_peak_mb d) as [x|] eqn:Hx;
      [|reflexivity].
    assert (Hf : Qltb m x = false) by (apply Qltb_ge, (Hle d); auto).
    rewrite Hf, andb_false_r. reflexivity. }
  rewrite Hstep. apply IH. intros d' x Hin. apply Hle. auto.
Qed.

(** The loop computes the order-free maximum [peak_max]. *)
Lemma running_max_peak_max (ls : list ScaleneLineData) (m : Q) :
  (0 <= m)%Q -> (running_max ls m == Qmax m (peak_max ls))%Q.
Proof.
  unfold running_max. revert m.
  induction ls as [|d ls IH]; simpl; intros m Hm.
  - symmetry. apply Q.max_l. assumption.
  - rewrite IH by (eapply Qle_trans; [exact Hm | apply raise_max_ge]).
    assert (Hrest : (0 <= peak_max ls)%Q).
    { clear. induction ls as [|d ls IH]; simpl; [lra|].
      destruct (LineData.n_peak_mb d) as [x|]; [|assumption].
      destruct (Q.max_spec x (peak_max ls)) as [[? ->]|[? ->]]; lra. }
    unfold raise_max. destruct (LineData.n_peak_mb d) as [x|]; [|reflexivity].
    destruct (Q.max_spec x (peak_max ls)) as [[? Hxr]|[? Hxr]];
      rewrite Hxr;
      destruct (Q.max_spec m (peak_max ls)) as [[? Hmr]|[? Hmr]];
      destruct (Q.max_spec m x) as [[? Hmx]|[? Hmx]];
      try rewrite Hmr; try rewrite Hmx;
      split_tests; reflect_tests;
      repeat match goal with
             | |- context [Qmax ?a ?b] =>
                 destruct (Q.max_spec a b) as [[? ->]|[? ->]]
             end; lra.
Qed.

Lemma peak_max_nonneg (ls : list ScaleneLineData) : (0 <= peak_max ls)%Q.
Proof.
  induction ls as [|d ls IH]; simpl; [lra|].
  destruct (LineData.n_peak_mb d) as [x|]; [|assumption].
  destruct (Q.max_spec x (peak_max ls)) as [[? ->]|[? ->]]; lra.
Qed.

(** ** From the visited lines back to the raw report *)

Lemma visited_line_inv (raw : RawScaleneProfile) (d : ScaleneLineData) :
  In d (visited_lines raw) ->
  exists path file l,
    In (path, file) (RawProfile.files raw) /\ In l (RawFile.lines file) /\
    d = parseScaleneLine l (RawFile.leaks file).
Proof.
  unfold visited_lines, lines_of_files.
  intros [[path file] [Hin Hd]]%in_flat_map. simpl in Hd.
  apply parseScaleneFile_line_inv in Hd as (l & Hl & ->).
  exists path, file, l. auto.
Qed.

Lemma visited_line_kept (raw : RawScaleneProfile) path file l :
  In (path, file) (RawProfile.files raw) ->
  NoDup (map RawLine.lineno (RawFile.lines file)) ->
  In l (RawFile.lines file) ->
  In (parseScaleneLine l (RawFile.leaks file)) (visited_lines raw).
Proof.
  intros Hfile Hnd Hl. unfold visited_lines, lines_of_files.
  apply in_flat_map. exists (path, file). split; [assumption|]. simpl.
  apply parseScaleneFile_line_kept; assumption.
Qed.

(** C7.  The reported maxMemoryMb is the running maximum of the peaks of
    the lines of all files, absent peaks not contributing: it equals the
    greatest of 0 and the present peaks of the normalised lines, bounds
    each of them, is 0 or one of them, and bounds the peak of every raw
    line of a file whose line numbers are distinct.  Two files of one line
    each with peaks 100 and 200 give 200. *)
Theorem max_memory_is_running_max :
  (forall raw : RawScaleneProfile,
      let m := Profile.max_memory_mb (parseScaleneProfile raw) in
      (m == peak_max (visited_lines raw))%Q /\
      (forall d x,
          In d (visited_lines raw) -> LineData.n_peak_mb d = Some x ->
          (x <= m)%Q) /\
      (m = 0%Q \/
       exists d, In d (visited_lines raw) /\ LineData.n_peak_mb d = Some m) /\
      (forall path file l x,
          In (path, file) (RawProfile.files raw) ->
          NoDup (map RawLine.lineno (RawFile.lines file)) ->
          In l (RawFile.lines file) -> RawLine.n_peak_mb l = Some x ->
          (x <= m)%Q)) /\
  Profile.max_memory_mb (parseScaleneProfile two_peaks_report) = 200%Q.
Proof.
  split; [|vm_compute; reflexivity].
  intros raw m. subst m. rewrite max_memory_mb_running.
  assert (Hbound : forall d x,
             In d (visited_lines raw) -> LineData.n_peak_mb d = Some x ->
             (x <= running_max (visited_lines raw) 0)%Q).
  { intros d x. apply running_max_ge_peak. lra. }
  split; [|split; [exact Hbound|split]].
  - rewrite running_max_peak_max by lra.
    apply Q.max_r, peak_max_nonneg.
  - apply running_max_attained.
  - intros path file l x Hfile Hnd Hl Hx.
    apply (Hbound (parseScaleneLine l (RawFile.leaks file))).
    + eapply visited_line_kept; eassumption.
    + exact Hx.
Qed.

(** C10.  The reported maxMemoryMb is never negative.  One step of the
    loop leaves the maximum as it is or replaces it by a strictly greater
    peak, so a peak that is zero or negative changes nothing; and when
    every peak of the raw report is absent, zero or negative the reported
    maximum is exactly 0. *)
Theorem max_memory_nonneg :
  (forall raw : RawScaleneProfile,
      (0 <= Profile.max_memory_mb (parseScaleneProfile raw))%Q) /\
  (forall (st : Locals) (d : ScaleneLineData),
      maxMemoryMb (aggregate_line st d) = maxMemoryMb st \/
      (maxMemoryMb st < maxMemoryMb (aggregate_line st d))%Q /\
      LineData.n_peak_mb d = Some (maxMemoryMb (aggregate_line st d))) /\
  (forall (st : Locals) (d : ScaleneLineData) (x : Q),
      (0 <= maxMemoryMb st)%Q -> LineData.n_peak_mb d = Some x ->
      (x <= 0)%Q -> maxMemoryMb (aggregate_line st d) = maxMemoryMb st) /\
  (forall raw : RawScaleneProfile,
      (forall path file l x,
          In (path, file) (RawProfile.files raw) ->
          In l (RawFile.lines file) -> RawLine.n_peak_mb l = Some x ->
          (x <= 0)%Q) ->
      Profile.max_memory_mb (parseScaleneProfile raw) = 0%Q).
Proof.
  split; [|split; [|split]].
  - intros raw. rewrite max_memory_mb_running. apply running_max_ge_init.
  - intros st d. simpl. unfold raise_max.
    destruct (LineData.n_peak_mb d) as [x|]; [|auto].
    destruct (truthy x) eqn:Ht, (Qltb (maxMemoryMb st) x) eqn:Hlt; simpl;
      auto.
    right. apply Qltb_lt in Hlt. auto.
  - intros st d x Hst Hx Hle. simpl. rewrite Hx. unfold raise_max.
    assert (Hf : Qltb (maxMemoryMb st) x = false) by (apply Qltb_ge; lra).
    rewrite Hf, andb_false_r. reflexivity.
  - intros raw Hall. rewrite max_memory_mb_running.
    apply running_max_floor. intros d x Hd Hx.
    apply visited_line_inv in Hd as (path & file & l & Hfile & Hl & ->).
    eapply Hall; eassumption.
Qed.

(** C4.  growthRatePercent is (totalMemoryGrowthMb / maxMemoryMb) * 100
    when maxMemoryMb is positive and exactly 0 when maxMemoryMb is 0, which
    are the only two cases; when every peak of the raw report is absent or
    zero it is exactly 0. *)
Theorem growth_rate_floor (raw : RawScaleneProfile) :
  let report := parseScaleneProfile raw in
  let m := Profile.max_memory_mb report in
  ((0 < m)%Q ->
   Profile.growth_rate report
   = (Profile.total_memory_growth_mb report / m * 100)%Q) /\
  ((m == 0)%Q -> Profile.growth_rate report = 0%Q) /\
  ((0 < m)%Q \/ (m == 0)%Q) /\
  ((forall path file l x,
       In (path, file) (RawProfile.files raw) ->
       In l (RawFile.lines file) -> RawLine.n_peak_mb l = Some x ->
       (x == 0)%Q) ->
   Profile.growth_rate report = 0%Q).
Proof.
  intros report m.
  assert (Hzero : (m == 0)%Q -> Profile.growth_rate report = 0%Q).
  { intros Hm. subst m report. unfold parseScaleneProfile in *; simpl in *.
    assert (Hf : Qltb 0 (maxMemoryMb
                (fold_left aggregate_file (RawProfile.files raw) initial))
                 = false) by (apply Qltb_ge; lra).
    rewrite Hf. reflexivity. }
  assert (Hnonneg : (0 <= m)%Q).
  { subst m report. rewrite max_memory_mb_running.
    apply running_max_ge_init. }
  split; [|split; [exact Hzero|split]].
  - intros Hm. subst m report. unfold parseScaleneProfile in *; simpl in *.
    apply Qltb_lt in Hm. rewrite Hm. reflexivity.
  - destruct (Qlt_le_dec 0 m); [auto|right; lra].
  - intros Hall. apply Hzero. subst m report.
    rewrite max_memory_mb_running, running_max_floor; [reflexivity|].
    intros d x Hd Hx.
    apply visited_line_inv in Hd as (path & file & l & Hfile & Hl & ->).
    simpl in Hx. rewrite (Hall path file l x Hfile Hl Hx). lra.
Qed.

(** ** The parser on loosely typed input *)

Lemma add_lines_loose_typed (leaks : option (gmap string Q))
    (ls : list RawScaleneLine) (o : NumObj.t ScaleneLineData) :
  add_lines_loose leaks (map Some ls) o
  = Returned (fold_left (add_line leaks) ls o).
Proof.
  revert o. induction ls as [|l ls IH]; intros o; [reflexivity|].
  simpl. apply IH.
Qed.

Lemma map_functions_loose_typed (fs : list RawScaleneFunction) :
  map_functions_loose (map Some fs) = Returned (map parseScaleneFunction fs).
Proof.
  induction fs as [|f fs IH]; [reflexivity|].
  simpl. rewrite IH. reflexivity.
Qed.

Lemma omap_id_map {A B : Type} (f : A -> option B) (l : list A) :
  omap id (map f l) = omap f l.
Proof.
  induction l as [|x l IH]; [reflexivity|].
  simpl. destruct (f x); simpl; [f_equal|]; exact IH.
Qed.

Lemma parseScaleneFile_loose_typed (file : RawScaleneFile) :
  parseScaleneFile_loose (Some (doc_of_file file))
  = Returned (parseScaleneFile file).
Proof.
  unfold parseScaleneFile_loose, parseScaleneFile, doc_of_file; simpl.
  rewrite add_lines_loose_typed; simpl.
  rewrite map_functions_loose_typed; simpl.
  rewrite omap_id_map. reflexivity.
Qed.

Lemma aggregate_files_loose_typed (fs : list (string * RawScaleneFile))
    (st : Locals) :
  aggregate_files_loose
    (map (fun entry : string * RawScaleneFile =>
            (fst entry, Some (doc_of_file (snd entry)))) fs) st
  = Returned (fold_left aggregate_file fs st).
Proof.
  revert st. induction fs as [|[path file] fs IH]; intros st; [reflexivity|].
  cbn [map aggregate_files_loose fst snd]. unfold aggregate_file_loose.
  rewrite parseScaleneFile_loose_typed. apply IH.
Qed.

(** On a report that matches the schema the loosely typed parser returns,
    and returns what the typed one computes. *)
Lemma parseScaleneProfile_loose_typed (raw : RawScaleneProfile) :
  parseScaleneProfile_loose (doc_of_report raw)
  = Returned (loose_of_profile (parseScaleneProfile raw)).
Proof.
  unfold parseScaleneProfile_loose, doc_of_report; simpl.
  rewrite aggregate_files_loose_typed; simpl.
  unfold loose_of_profile, parseScaleneProfile; simpl. f_equal. f_equal.
  - destruct (RawProfile.args raw) as [[|a rest]|]; simpl;
      [| destruct a; simpl |];
      destruct (RawProfile.filename raw) as [[|c nm]|]; reflexivity.
  - destruct (RawProfile.args raw); reflexivity.
  - destruct (RawProfile.entrypoint_dir raw) as [[|c d]|]; reflexivity.
  - destruct (RawProfile.alloc_samples raw) as [x|]; [|reflexivity].
    unfold orV, or_else; simpl. destruct (truthy x); reflexivity.
  - destruct (RawProfile.free_samples raw) as [x|]; [|reflexivity].
    unfold orV, or_else; simpl. destruct (truthy x); reflexivity.
Qed.

Lemma add_lines_loose_returns (leaks : option (gmap string Q))
    (ls : list (option RawScaleneLine)) (o : NumObj.t ScaleneLineData) :
  (exists r, add_lines_loose leaks ls o = Returned r) <-> Forall is_Some ls.
Proof.
  revert o. induction ls as [|[l|] ls IH]; intros o; simpl.
  - split; [constructor | eauto].
  - rewrite IH. split.
    + intros H. constructor; [eexists; reflexivity | exact H].
    + intros H. inversion H; assumption.
  - split.
    + intros [r Hr]. discriminate Hr.
    + intros H. inversion H as [|? ? [? Hx] _]. discriminate Hx.
Qed.

Lemma map_functions_loose_returns (fs : list (option RawScaleneFunction)) :
  (exists r, map_functions_loose fs = Returned r) <-> Forall is_Some fs.
Proof.
  induction fs as [|[f|] fs IH]; simpl.
  - split; [constructor | eauto].
  - split.
    + intros [r Hr]. constructor; [eexists; reflexivity|]. apply IH.
      destruct (map_functions_loose fs); [eauto | discriminate Hr].
    + intros H. inversion H as [|? ? _ Hfs]; subst.
      apply IH in Hfs as [r ->]. simpl. eauto.
  - split.
    + intros [r Hr]. discriminate Hr.
    + intros H. inversion H as [|? ? [? Hx] _]. discriminate Hx.
Qed.

Lemma parseScaleneFile_loose_returns (file : option Doc.File) :
  (exists r, parseScaleneFile_loose file = Returned r) <->
  file_structured file.
Proof.
  unfold parseScaleneFile_loose, file_structured.
  destruct file as [f|]; [|split; [intros [? H]; discriminate H
                                  | intros (? & ? & ? & H & _); discriminate H]].
  destruct (Doc.lines f) as [ls|] eqn:Hls;
    [|split; [intros [? H]; discriminate H
             | intros (? & ? & ? & [= <-] & H & _); congruence]].
  destruct (Doc.functions f) as [fs|] eqn:Hfs.
  - split.
    + intros [r Hr]. exists f, ls, fs.
      split; [reflexivity|]. split; [exact Hls|]. split; [exact Hfs|].
      destruct (add_lines_loose (Doc.leaks f) ls NumObj.empty) as [o|] eqn:Ho;
        [|discriminate Hr].
      simpl in Hr.
      destruct (map_functions_loose fs) as [m|] eqn:Hm; [|discriminate Hr].
      split.
      * apply (add_lines_loose_returns (Doc.leaks f) ls NumObj.empty). eauto.
      * apply map_functions_loose_returns. eauto.
    + intros (f' & ls' & fs' & [= <-] & Hl & Hf & Hall1 & Hall2).
      rewrite Hls in Hl. rewrite Hfs in Hf.
      injection Hl as <-. injection Hf as <-.
      apply (add_lines_loose_returns (Doc.leaks f) ls NumObj.empty)
        in Hall1 as [o ->].
      apply map_functions_loose_returns in Hall2 as [m ->].
      simpl. eauto.
  - split.
    + intros [r Hr].
      destruct (add_lines_loose (Doc.leaks f) ls NumObj.empty);
        discriminate Hr.
    + intros (f' & ls' & fs' & [= <-] & _ & H & _). congruence.
Qed.

Lemma aggregate_files_loose_returns
    (entries : list (string * option Doc.File)) (st : Locals) :
  (exists r, aggregate_files_loose entries st = Returned r) <->
  Forall (fun entry => file_structured (snd entry)) entries.
Proof.
  revert st. induction entries as [|[path file] entries IH]; intros st; simpl.
  - split; [constructor | eauto].
  - split.
    + intros [r Hr].
      destruct (parseScaleneFile_loose file) as [nf|] eqn:Hnf;
        [|discriminate Hr].
      simpl in Hr. constructor.
      * simpl. apply parseScaleneFile_loose_returns. eauto.
      * eapply IH. eauto.
    + intros H. inversion H as [|? ? Hfile Hrest]; subst. simpl in Hfile.
      apply parseScaleneFile_loose_returns in Hfile as [nf ->]. simpl.
      apply IH. exact Hrest.
Qed.

Lemma parseScaleneProfile_loose_returns (raw : Doc.Report) :
  (exists r, parseScaleneProfile_loose raw = Returned r) <-> structured raw.
Proof.
  unfold parseScaleneProfile_loose, structured.
  destruct (Doc.files raw) as [entries|];
    [|split; [intros [? H]; discriminate H
             | intros (? & H & _); discriminate H]].
  split.
  - intros [r Hr]. exists entries. split; [reflexivity|].
    apply (aggregate_files_loose_returns entries initial).
    destruct (aggregate_files_loose entries initial); [eauto|discriminate Hr].
  - intros (entries' & [= <-] & Hall).
    apply (aggregate_files_loose_returns entries initial) in Hall as [st ->].
    simpl. eauto.
Qed.

Lemma orV_nullish (v d : value) : nullish v -> orV v d = d.
Proof. intros [->| ->]; reflexivity. Qed.


(** ** Formatting helpers *)

(** C9.  The memory formatter maps undefined and 0 to "-", a value below
    0.01 to "<0.01 MB", a value below 1 to two decimals and " MB", a value
    below 1000 to one decimal and " MB", and any other value to the value
    divided by 1024, with two decimals, and " GB".  The percentage
    formatter maps undefined and 0 to "-", a value below 0.01 to "<0.01%",
    and any other value to two decimals and "%". *)
Theorem formatters_case_analysis (toFixed : Q -> nat -> string) :
  (formatMemoryMb toFixed None = "-" /\ formatPercent toFixed None = "-") /\
  (forall x : Q,
      (x == 0)%Q ->
      formatMemoryMb toFixed (Some x) = "-" /\
      formatPercent toFixed (Some x) = "-") /\
  (forall x : Q,
      ~ (x == 0)%Q -> (x < 1 # 100)%Q ->
      formatMemoryMb toFixed (Some x) = "<0.01 MB" /\
      formatPercent toFixed (Some x) = "<0.01%") /\
  (forall x : Q,
      (1 # 100 <= x)%Q -> (x < 1)%Q ->
      formatMemoryMb toFixed (Some x) = toFixed x 2%nat +:+ " MB") /\
  (forall x : Q,
      (1 <= x)%Q -> (x < 1000)%Q ->
      formatMemoryMb toFixed (Some x) = toFixed x 1%nat +:+ " MB") /\
  (forall x : Q,
      (1000 <= x)%Q ->
      formatMemoryMb toFixed (Some x)
      = toFixed (x / 1024)%Q 2%nat +:+ " GB") /\
  (forall x : Q,
      (1 # 100 <= x)%Q ->
      formatPercent toFixed (Some x) = toFixed x 2%nat +:+ "%").
Proof.
  assert (Heq : forall x, (x == 0)%Q -> Qeq_bool x 0 = true)
    by (intros; apply Qeq_bool_iff; assumption).
  assert (Hne : forall x, ~ (x == 0)%Q -> Qeq_bool x 0 = false)
    by (intros; apply not_true_iff_false; rewrite Qeq_bool_iff; assumption).
  assert (Hlt : forall x y, (x < y)%Q -> Qltb x y = true)
    by (intros; apply Qltb_lt; assumption).
  assert (Hge : forall x y, (y <= x)%Q -> Qltb x y = false)
    by (intros; apply Qltb_ge; assumption).
  unfold formatMemoryMb, formatPercent.
  split; [split; reflexivity|].
  split; [intros x H0; rewrite (Heq x H0); split; reflexivity|].
  split; [intros x H0 H1; rewrite (Hne x H0), (Hlt _ _ H1); split;
          reflexivity|].
  split; [intros x H0 H1;
          rewrite (Hne x), (Hge x (1 # 100)%Q), (Hlt x 1%Q) by lra;
          reflexivity|].
  split; [intros x H0 H1;
          rewrite (Hne x), (Hge x (1 # 100)%Q), (Hge x 1%Q), (Hlt x 1000%Q)
            by lra; reflexivity|].
  split; [intros x H0;
          rewrite (Hne x), (Hge x (1 # 100)%Q), (Hge x 1%Q), (Hge x 1000%Q)
            by lra; reflexivity|].
  intros x H0. rewrite (Hne x), (Hge x (1 # 100)%Q) by lra. reflexivity.
Qed.

(** The boundary values of the specification, with the engine's [toFixed]. *)
Example memory_formatter_boundaries :
  map (formatMemoryMb Number_toFixed)
      [None; Some 0%Q; Some (5 # 1000); Some (1 # 2); Some (427 # 10);
       Some 2048%Q]
  = ["-"; "-"; "<0.01 MB"; "0.50 MB"; "42.7 MB"; "2.00 GB"].
Proof. vm_compute. reflexivity. Qed.

Example percent_formatter_boundaries :
  map (formatPercent Number_toFixed)
      [None; Some 0%Q; Some (5 # 1000); Some (314159 # 100000)]
  = ["-"; "-"; "<0.01%"; "3.14%"].
Proof. vm_compute. reflexivity. Qed.

(** ** The claims that fail as stated, at concrete inputs *)

(** C2 as stated fails: line 20 without metrics, under a leaks map that
    holds the weight -5 for it, scores -5. *)
Lemma leakScore_negative_for_negative_weight :
  LineData.leak_score (parseScaleneLine line20 (Some negative_leaks))
  = Some (-5)%Q /\
  ~ (0 <= -5)%Q.
Proof. split; [reflexivity | lra]. Qed.


(** C5 as stated fails: a record that has both a name and a line number is
    rejected when the name is empty, and when the line number is 0. *)
Lemma parseScaleneFunction_rejects_present_fields :
  (RawFunction.name (raw_function (Some "") (Some 5%N)) <> None /\
   RawFunction.lineno (raw_function (Some "") (Some 5%N)) <> None /\
   parseScaleneFunction (raw_function (Some "") (Some 5%N)) = None) /\
  (RawFunction.name (raw_function (Some "main") (Some 0%N)) <> None /\
   RawFunction.lineno (raw_function (Some "main") (Some 0%N)) <> None /\
   parseScaleneFunction (raw_function (Some "main") (Some 0%N)) = None).
Proof. repeat split; simpl; congruence. Qed.

(** ** The theorems at concrete inputs *)

Lemma leakScore_nonneg_for_nonneg_weight_witness :
  (0 <= leak_weight (RawLine.lineno line10) (Some positive_leaks))%Q /\
  exists s : Q,
    LineData.leak_score (parseScaleneLine line10 (Some positive_leaks))
    = Some s /\ (0 <= s)%Q.
Proof.
  assert (H : (0 <= leak_weight (RawLine.lineno line10)
                     (Some positive_leaks))%Q)
    by (vm_compute; discriminate).
  split; [exact H|].
  exact (leakScore_nonneg_for_nonneg_weight line10 (Some positive_leaks) H).
Defined.

Lemma leakScore_monotone_in_growth_witness :
  RawLine.n_growth_mb line10 = Some 5%Q /\ (0 < 5)%Q /\ (5 < 7)%Q /\
  exists s1 s2 : Q,
    LineData.leak_score (parseScaleneLine line10 None) = Some s1 /\
    LineData.leak_score
      (parseScaleneLine (with_growth line10 (Some 7%Q)) None) = Some s2 /\
    (s1 <= s2)%Q.
Proof.
  split; [reflexivity|]. split; [reflexivity|]. split; [reflexivity|].
  apply (leakScore_monotone_in_growth line10 5 7 None); reflexivity.
Defined.

Lemma isLikelyLeak_strict_threshold_witness :
  isLikelyLeak (scored_line (Some 50%Q)) None = false /\
  isLikelyLeak (scored_line (Some (50 + (1 # 1000))%Q)) None = true /\
  isLikelyLeak (scored_line (Some 80%Q)) None = true /\
  isLikelyLeak (scored_line None) (Some 0%Q) = false.
Proof.
  split; [|split; [|split]].
  - pose proof (isLikelyLeak_strict_threshold (scored_line (Some 50%Q)) None)
      as (_ & Heq & _).
    apply Heq. reflexivity.
  - pose proof (isLikelyLeak_strict_threshold
                  (scored_line (Some (50 + (1 # 1000))%Q)) None)
      as (_ & _ & Heps).
    apply (Heps (1 # 1000)%Q); reflexivity.
  - pose proof (isLikelyLeak_strict_threshold (scored_line (Some 80%Q)) None)
      as (Hiff & _).
    apply Hiff. reflexivity.
  - pose proof (isLikelyLeak_strict_threshold (scored_line None) (Some 0%Q))
      as (_ & Heq & _).
    apply Heq. reflexivity.
Defined.

Lemma growth_rate_floor_witness :
  Profile.growth_rate (parseScaleneProfile negative_peak_report) = 0%Q /\
  Profile.growth_rate (parseScaleneProfile two_peaks_report)
  = (Profile.total_memory_growth_mb (parseScaleneProfile two_peaks_report)
     / Profile.max_memory_mb (parseScaleneProfile two_peaks_report) * 100)%Q.
Proof.
  split.
  - pose proof (growth_rate_floor negative_peak_report) as (_ & Hzero & _).
    apply Hzero. vm_compute. reflexivity.
  - pose proof (growth_rate_floor two_peaks_report) as (Hpos & _).
    apply Hpos. vm_compute. reflexivity.
Defined.

Lemma parseScaleneFunction_rejects_falsy_witness :
  (exists f,
      parseScaleneFunction (raw_function (Some "main") (Some 3%N)) = Some f /\
      Function.name f = "main" /\ Function.lineno f = 3%N) /\
  length
    (FileData.functions
       (parseScaleneFile
          (raw_file []
             [raw_function (Some "main") (Some 3%N);
              raw_function (Some "helper") None])))
  = 1%nat.
Proof.
  pose proof (parseScaleneFunction_rejects_falsy
                (raw_function (Some "main") (Some 3%N))) as (_ & Hkept & Hlen).
  split.
  - apply Hkept; [reflexivity | discriminate | reflexivity | discriminate].
  - apply (Hlen "main" 3%N);
      [reflexivity | discriminate | reflexivity | discriminate | reflexivity].
Defined.


Lemma max_memory_is_running_max_witness :
  (100 <= Profile.max_memory_mb (parseScaleneProfile two_peaks_report))%Q /\
  (200 <= Profile.max_memory_mb (parseScaleneProfile two_peaks_report))%Q.
Proof.
  pose proof (proj1 max_memory_is_running_max two_peaks_report)
    as (_ & _ & _ & Hraw).
  split.
  - apply (Hraw "a.py"
             (raw_file [memory_line 1 None None None (Some 100%Q)] [])
             (memory_line 1 None None None (Some 100%Q)));
      [simpl; auto | apply NoDup_singleton | simpl; auto | reflexivity].
  - apply (Hraw "b.py"
             (raw_file [memory_line 1 None None None (Some 200%Q)] [])
             (memory_line 1 None None None (Some 200%Q)));
      [simpl; auto | apply NoDup_singleton | simpl; auto | reflexivity].
Defined.

Lemma max_memory_nonneg_witness :
  Profile.max_memory_mb (parseScaleneProfile negative_peak_report) = 0%Q.
Proof.
  apply (proj2 (proj2 (proj2 max_memory_nonneg))).
  intros path file l x [Hfile|[]] Hl Hx. inversion Hfile; subst.
  destruct Hl as [<-|[]]. inversion Hx; subst. vm_compute. discriminate.
Defined.

Lemma formatters_case_analysis_witness :
  (1 # 100 <= 1 # 2)%Q /\ (1 # 2 < 1)%Q /\
  formatMemoryMb Number_toFixed (Some (1 # 2)%Q)
  = Number_toFixed (1 # 2)%Q 2%nat +:+ " MB".
Proof.
  pose proof (formatters_case_analysis Number_toFixed)
    as (_ & _ & _ & Hmb & _).
  assert (H1 : (1 # 100 <= 1 # 2)%Q) by (vm_compute; discriminate).
  assert (H2 : (1 # 2 < 1)%Q) by reflexivity.
  split; [exact H1|]. split; [exact H2|]. exact (Hmb (1 # 2)%Q H1 H2).
Defined.

(** A raw line overwritten by a later line of the same number is not among
    the normalised lines, so its peak is not counted. *)
Example overwritten_line_not_counted :
  Profile.max_memory_mb
    (parseScaleneProfile
       (raw_report
          [("a.py",
            raw_file [memory_line 1 None None None (Some 300%Q);
                      memory_line 1 None None None (Some 100%Q)] [])]))
  = 100%Q.
Proof. vm_compute. reflexivity. Qed.

(** The end-to-end scenario: line 10 is classified as a leak under the
    default threshold and line 20 is not. *)
Example scenario_classification :
  isLikelyLeak (parseScaleneLine line10 None) None = true /\
  isLikelyLeak (parseScaleneLine line20 None) None = false.
Proof. split; vm_compute; reflexivity. Qed.

(** * Further properties of the parser *)

(** ** Leak score *)

(** Without a positive growth none of the three metric terms applies: the
    score is the leaks-map weight of the line, or 0. *)
Theorem leakScore_without_growth (line : RawScaleneLine)
    (leaks : option (gmap string Q)) :
  positive (RawLine.n_growth_mb line) = false ->
  (calculateLeakScore line leaks
   == leak_weight (RawLine.lineno line) leaks)%Q.
Proof.
  intros Hg. rewrite calculateLeakScore_spec. unfold leakScore_spec.
  rewrite <- (positive_spec (RawLine.n_growth_mb line)), Hg.
  rewrite !andb_false_r. simpl. lra.
Qed.

Lemma leakScore_without_growth_witness :
  positive (RawLine.n_growth_mb (with_growth line10 (Some (-4)%Q))) = false /\
  (calculateLeakScore (with_growth line10 (Some (-4)%Q)) (Some positive_leaks)
   == 3)%Q.
Proof.
  split; [reflexivity|].
  apply (leakScore_without_growth (with_growth line10 (Some (-4)%Q))
           (Some positive_leaks)).
  reflexivity.
Defined.

(** The score never decreases when the growth of a line is raised, from
    any value or from none, all else being equal. *)
Theorem leakScore_growth_order (line : RawScaleneLine) (g2 : Q)
    (leaks : option (gmap string Q)) :
  match RawLine.n_growth_mb line with
  | Some g1 => (g1 <= g2)%Q
  | None => True
  end ->
  (calculateLeakScore line leaks
   <= calculateLeakScore (with_growth line (Some g2)) leaks)%Q.
Proof.
  intros Hle. rewrite !calculateLeakScore_spec.
  unfold leakScore_spec, present_gt0, present_below.
  destruct line as [ln txt ? ? ? ? ? mallocMb ? ? growthMb ? usage
                    ? ? ? ? ? ? ? ? ? ?]; simpl in *.
  destruct growthMb as [g1|], mallocMb as [a|], usage as [u|]; simpl;
    split_tests; lra.
Qed.

Lemma leakScore_growth_order_witness :
  (calculateLeakScore (with_growth line10 (Some (-4)%Q)) None
   <= calculateLeakScore
        (with_growth (with_growth line10 (Some (-4)%Q)) (Some 2%Q)) None)%Q.
Proof.
  apply (leakScore_growth_order (with_growth line10 (Some (-4)%Q)) 2 None).
  simpl. lra.
Defined.

(** Normalising a raw line and classifying it compose to one comparison
    of the score computed for the raw line with the threshold (50 when
    none is given): a normalised line always carries its score, and the
    classifier's fallback to 0 changes nothing for a score of 0. *)
Theorem isLikelyLeak_of_raw_line (line : RawScaleneLine)
    (leaks : option (gmap string Q)) (threshold : option Q) :
  isLikelyLeak (parseScaleneLine line leaks) threshold = true <->
  (default 50 threshold < calculateLeakScore line leaks)%Q.
Proof.
  unfold isLikelyLeak, or_else; simpl. rewrite Qltb_lt.
  destruct (truthy (calculateLeakScore line leaks)) eqn:Hs; [reflexivity|].
  apply truthy_false in Hs. rewrite Hs. reflexivity.
Qed.

(** ** File normaliser: the line lookup *)

Lemma find_snoc {A : Type} (p : A -> bool) (l : list A) (x : A) :
  find p (l ++ [x])
  = match find p l with
    | Some y => Some y
    | None => if p x then Some x else None
    end.
Proof.
  induction l as [|y l IH]; simpl; [reflexivity|].
  destruct (p y); [reflexivity | exact IH].
Qed.

Lemma lookup_put_sorted {V : Type} (k k' : N) (v : V) (l : list (N * V)) :
  lookup_key k (NumObj.put_sorted k' v l)
  = if (k =? k')%N then Some v else lookup_key k l.
Proof.
  induction l as [|[k0 v0] rest IH]; simpl; [reflexivity|].
  destruct (k' <? k0)%N eqn:Hlt; simpl.
  - destruct (k =? k')%N; reflexivity.
  - destruct (k' =? k0)%N eqn:Heq; simpl.
    + apply N.eqb_eq in Heq; subst k0.
      destruct (k =? k')%N; reflexivity.
    + rewrite IH. destruct (k =? k0)%N eqn:Hk0; [|reflexivity].
      apply N.eqb_eq in Hk0; subst k0.
      rewrite N.eqb_sym, Heq. reflexivity.
Qed.

Lemma lookup_put_last {V : Type} (k k' : N) (v : V) (l : list (N * V)) :
  lookup_key k (NumObj.put_last k' v l)
  = if (k =? k')%N then Some v else lookup_key k l.
Proof.
  induction l as [|[k0 v0] rest IH]; simpl; [reflexivity|].
  destruct (k' =? k0)%N eqn:Heq; simpl.
  - apply N.eqb_eq in Heq; subst k0.
    destruct (k =? k')%N; reflexivity.
  - rewrite IH. destruct (k =? k0)%N eqn:Hk0; [|reflexivity].
    apply N.eqb_eq in Hk0; subst k0.
    rewrite N.eqb_sym, Heq. reflexivity.
Qed.

(** Reading after an assignment. *)
Lemma NumObj_get_set {V : Type} (k k' : N) (v : V) (o : NumObj.t V) :
  NumObj_get k (NumObj.set k' v o)
  = if (k =? k')%N then Some v else NumObj_get k o.
Proof.
  unfold NumObj_get, NumObj.set.
  destruct (k =? k')%N eqn:Heq.
  - apply N.eqb_eq in Heq; subst k'.
    destruct (NumObj.is_array_index k); simpl;
      [rewrite lookup_put_sorted | rewrite lookup_put_last];
      rewrite N.eqb_refl; reflexivity.
  - destruct (NumObj.is_array_index k') eqn:Hk',
      (NumObj.is_array_index k) eqn:Hk; simpl; try reflexivity;
      [rewrite lookup_put_sorted | rewrite lookup_put_last];
      rewrite Heq; reflexivity.
Qed.

Lemma NumObj_get_add_lines (leaks : option (gmap string Q))
    (ls : list RawScaleneLine) (o : NumObj.t ScaleneLineData) (k : N) :
  NumObj_get k (fold_left (add_line leaks) ls o)
  = match last_with_lineno k ls with
    | Some l => Some (parseScaleneLine l leaks)
    | None => NumObj_get k o
    end.
Proof.
  unfold last_with_lineno. revert o.
  induction ls as [|l ls IH]; simpl; intros o; [reflexivity|].
  rewrite IH, find_snoc.
  destruct (find _ (rev ls)); [reflexivity|].
  unfold add_line. rewrite NumObj_get_set, N.eqb_sym.
  destruct (RawLine.lineno l =? k)%N; reflexivity.
Qed.

(** Last write wins.  Reading the line lookup of a normalised file at a
    number gives the normalisation of the last raw line that carries the
    number, and nothing when no raw line carries it. *)
Theorem parseScaleneFile_lookup (file : RawScaleneFile) (k : N) :
  NumObj_get k (FileData.lines (parseScaleneFile file))
  = (fun l => parseScaleneLine l (RawFile.leaks file))
      <$> last_with_lineno k (RawFile.lines file).
Proof.
  unfold parseScaleneFile; simpl. rewrite NumObj_get_add_lines.
  destruct (last_with_lineno k (RawFile.lines file)); [reflexivity|].
  unfold NumObj_get. destruct (NumObj.is_array_index k); reflexivity.
Qed.

Lemma isLikelyLeak_of_raw_line_witness :
  isLikelyLeak (parseScaleneLine line10 None) None = true.
Proof.
  apply (isLikelyLeak_of_raw_line line10 None None). reflexivity.
Defined.

Lemma parseScaleneFile_lookup_witness :
  NumObj_get 1
    (FileData.lines
       (parseScaleneFile
          (raw_file [memory_line 1 None None None (Some 300%Q);
                     memory_line 1 None None None (Some 100%Q)] [])))
  = Some (parseScaleneLine (memory_line 1 None None None (Some 100%Q)) None).
Proof.
  rewrite (parseScaleneFile_lookup
             (raw_file [memory_line 1 None None None (Some 300%Q);
                        memory_line 1 None None None (Some 100%Q)] []) 1).
  reflexivity.
Defined.

(** ** File normaliser: the order of the lines *)

Lemma put_sorted_keys {V : Type} (k : N) (v : V) (l : list (N * V)) (x : N) :
  In x (map fst (NumObj.put_sorted k v l)) -> x = k \/ In x (map fst l).
Proof.
  intros [[k0 v0] [<- Hin]]%in_map_iff.
  apply NumObjFacts.put_sorted_inv in Hin as [Heq|Hin].
  - inversion Heq; auto.
  - right. apply in_map_iff. exists (k0, v0). auto.
Qed.

Lemma put_sorted_sorted {V : Type} (k : N) (v : V) (l : list (N * V)) :
  StronglySorted N.lt (map fst l) ->
  StronglySorted N.lt (map fst (NumObj.put_sorted k v l)).
Proof.
  induction l as [|[k0 v0] rest IH]; simpl; intros Hs.
  - constructor; [constructor | constructor].
  - inversion Hs as [|? ? Hrest Hall]; subst.
    destruct (k <? k0)%N eqn:Hlt; simpl.
    + apply N.ltb_lt in Hlt. constructor; [exact Hs|].
      constructor; [exact Hlt|].
      eapply Forall_impl; [exact Hall|]. simpl. intros; lia.
    + destruct (k =? k0)%N eqn:Heq; simpl.
      * apply N.eqb_eq in Heq; subst k0. constructor; assumption.
      * apply N.ltb_ge in Hlt. apply N.eqb_neq in Heq.
        constructor; [apply IH; assumption|].
        apply Forall_forall. intros x Hx.
        apply list_elem_of_In, put_sorted_keys in Hx as [->|Hx]; [lia|].
        rewrite Forall_forall in Hall. apply Hall, list_elem_of_In, Hx.
Qed.

Lemma add_lines_in_order (leaks : option (gmap string Q))
    (ls : list RawScaleneLine) (o : NumObj.t ScaleneLineData) :
  (forall l, In l ls -> (RawLine.lineno l < 4294967295)%N) ->
  lines_in_order o -> lines_in_order (fold_left (add_line leaks) ls o).
Proof.
  revert o. induction ls as [|l ls IH]; simpl; intros o Hidx Ho; [exact Ho|].
  apply IH; [intros l' Hl'; apply Hidx; auto|].
  destruct Ho as (Hnamed & Hsorted & Hkeys).
  assert (Hi : NumObj.is_array_index (RawLine.lineno l) = true).
  { unfold NumObj.is_array_index. apply N.ltb_lt, Hidx. auto. }
  unfold add_line, NumObj.set. rewrite Hi. unfold lines_in_order; simpl.
  split; [exact Hnamed|]. split; [apply put_sorted_sorted; exact Hsorted|].
  intros k d Hin. apply NumObjFacts.put_sorted_inv in Hin as [Heq|Hin].
  - inversion Heq; subst. reflexivity.
  - apply Hkeys; assumption.
Qed.

(** Whatever the order of the raw lines, [Object.values] lists the
    normalised lines of a file by strictly ascending line number (so
    without repetition), provided the numbers are array indices, as real
    line numbers are. *)
Theorem parseScaleneFile_lines_ascending (file : RawScaleneFile) :
  (forall l, In l (RawFile.lines file) ->
             (RawLine.lineno l < 4294967295)%N) ->
  StronglySorted N.lt
    (map LineData.lineno
       (NumObj.values (FileData.lines (parseScaleneFile file)))).
Proof.
  intros Hidx.
  assert (Hinv : lines_in_order (FileData.lines (parseScaleneFile file))).
  { unfold parseScaleneFile; simpl. apply add_lines_in_order; [exact Hidx|].
    unfold lines_in_order; simpl. split; [reflexivity|].
    split; [constructor | intros k d []]. }
  destruct Hinv as (Hnamed & Hsorted & Hkeys).
  unfold NumObj.values, NumObj.entries. rewrite Hnamed, app_nil_r.
  rewrite map_map.
  assert (Hsame : map (fun e => LineData.lineno (snd e))
                    (NumObj.indexed (FileData.lines (parseScaleneFile file)))
                  = map fst
                      (NumObj.indexed (FileData.lines (parseScaleneFile file)))).
  { apply map_ext_in. intros [k d] Hin. simpl. apply Hkeys. exact Hin. }
  rewrite Hsame. exact Hsorted.
Qed.

Lemma parseScaleneFile_lines_ascending_witness :
  StronglySorted N.lt
    (map LineData.lineno
       (NumObj.values
          (FileData.lines
             (parseScaleneFile
                (raw_file [bare_line 20; bare_line 3; bare_line 20;
                           bare_line 7] []))))).
Proof.
  apply (parseScaleneFile_lines_ascending
           (raw_file [bare_line 20; bare_line 3; bare_line 20; bare_line 7]
              [])).
  intros l [<-|[<-|[<-|[<-|[]]]]]; reflexivity.
Defined.

(** ** File normaliser: the function list *)

Lemma parseScaleneFunction_inv (raw : RawScaleneFunction)
    (f : ScaleneFunction) :
  parseScaleneFunction raw = Some f ->
  kept raw = true /\
  RawFunction.name raw = Some (Function.name f) /\ Function.name f <> "" /\
  RawFunction.lineno raw = Some (Function.lineno f) /\
  Function.lineno f <> 0%N /\ same_metrics raw f.
Proof.
  unfold parseScaleneFunction, kept, same_metrics.
  destruct (RawFunction.name raw) as [nm|]; [|discriminate].
  destruct (RawFunction.lineno raw) as [ln|]; [|discriminate].
  destruct (truthyS nm) eqn:Hn; [|discriminate].
  destruct (truthyN ln) eqn:Hl; [|discriminate].
  simpl. intros [= <-]. simpl.
  apply truthyS_true in Hn. apply truthyN_true in Hl.
  repeat split; assumption.
Qed.

Lemma parseScaleneFunction_None (raw : RawScaleneFunction) :
  parseScaleneFunction raw = None -> kept raw = false.
Proof.
  unfold parseScaleneFunction, kept.
  destruct (RawFunction.name raw) as [nm|]; [|reflexivity].
  destruct (RawFunction.lineno raw) as [ln|]; [|reflexivity].
  destruct (truthyS nm), (truthyN ln); simpl; congruence.
Qed.

Lemma raw_of_function_parse (raw : RawScaleneFunction)
    (f : ScaleneFunction) :
  parseScaleneFunction raw = Some f -> raw_of_function f = raw.
Proof.
  unfold parseScaleneFunction, raw_of_function.
  destruct raw as [[nm|] [ln|] ? ? ? ? ? ? ?]; simpl; try discriminate.
  destruct (truthyS nm), (truthyN ln); simpl; try discriminate.
  intros [= <-]. reflexivity.
Qed.

(** The function list of a normalised file is, record for record and in
    the same order, the list of the raw records that have a non-empty name
    and a non-zero line number: each with its name, its line number and
    its seven metrics unchanged, none added, none left out. *)
Theorem parseScaleneFile_functions (file : RawScaleneFile) :
  let fs := FileData.functions (parseScaleneFile file) in
  map raw_of_function fs = List.filter kept (RawFile.functions file) /\
  (forall f, In f fs -> Function.name f <> "" /\ Function.lineno f <> 0%N).
Proof.
  unfold parseScaleneFile; simpl.
  induction (RawFile.functions file) as [|raw raws [IHeq IHin]]; simpl.
  - split; [reflexivity | intros f []].
  - destruct (parseScaleneFunction raw) as [f0|] eqn:Hp.
    + pose proof (raw_of_function_parse raw f0 Hp) as Hraw.
      apply parseScaleneFunction_inv in Hp
        as (Hk & _ & Hne & _ & Hlz & _).
      rewrite Hk. simpl. split; [f_equal; [exact Hraw | exact IHeq]|].
      intros f [<-|Hin]; [auto | apply IHin; exact Hin].
    + apply parseScaleneFunction_None in Hp. rewrite Hp.
      split; [exact IHeq | exact IHin].
Qed.

(** ** Report normaliser: the totals *)

Section Totals.
Variable proj : Locals -> Q.
Variable metric : ScaleneLineData -> option Q.
Hypothesis proj_line :
  forall st d, proj (aggregate_line st d) = add_if (metric d) (proj st).
Hypothesis proj_files :
  forall st fs,
    proj {| maxMemoryMb := maxMemoryMb st;
            totalMemoryGrowthMb := totalMemoryGrowthMb st;
            totalCpuPython := totalCpuPython st;
            totalCpuC := totalCpuC st;
            totalSys := totalSys st;
            files := fs |} = proj st.

Lemma total_of_lines (ls : list ScaleneLineData) (st : Locals) :
  proj (fold_left aggregate_line ls st)
  = fold_left (fun t d => add_if (metric d) t) ls (proj st).
Proof.
  revert st. induction ls as [|d ls IH]; simpl; intros st; [reflexivity|].
  rewrite IH, proj_line. reflexivity.
Qed.

Lemma total_of_files (fs : list (string * RawScaleneFile)) (st : Locals) :
  proj (fold_left aggregate_file fs st)
  = fold_left (fun t d => add_if (metric d) t) (lines_of_files fs) (proj st).
Proof.
  revert st. induction fs as [|[path file] fs IH]; simpl; intros st;
    [reflexivity|].
  rewrite IH, fold_left_app, total_of_lines, proj_files. reflexivity.
Qed.

Lemma total_is_sum (ls : list ScaleneLineData) (t : Q) :
  (fold_left (fun t d => add_if (metric d) t) ls t
   == t + sum_present metric ls)%Q.
Proof.
  revert t. induction ls as [|d ls IH]; simpl; intros t; [lra|].
  rewrite IH. unfold add_if. destruct (metric d) as [x|]; simpl; [|lra].
  destruct (truthy x) eqn:Hx; [lra|]. apply truthy_false in Hx. lra.
Qed.

Lemma total_of_report (fs : list (string * RawScaleneFile)) :
  proj initial = 0%Q ->
  (proj (fold_left aggregate_file fs initial)
   == sum_present metric (lines_of_files fs))%Q.
Proof.
  intros H0. rewrite total_of_files, total_is_sum, H0. lra.
Qed.
End Totals.

(** The four totals of a report are the plain sums of the metric over the
    normalised lines of all files: an absent value adds nothing, and a
    negative growth lowers the total. *)
Theorem totals_are_sums (raw : RawScaleneProfile) :
  let report := parseScaleneProfile raw in
  let ls := visited_lines raw in
  (Profile.total_memory_growth_mb report
   == sum_present LineData.n_growth_mb ls)%Q /\
  (Profile.total_cpu_percent_python report
   == sum_present LineData.n_cpu_percent_python ls)%Q /\
  (Profile.total_cpu_percent_c report
   == sum_present LineData.n_cpu_percent_c ls)%Q /\
  (Profile.total_sys_percent report
   == sum_present LineData.n_sys_percent ls)%Q.
Proof.
  unfold parseScaleneProfile, visited_lines; simpl.
  repeat split.
  - apply (total_of_report totalMemoryGrowthMb); reflexivity.
  - apply (total_of_report totalCpuPython); reflexivity.
  - apply (total_of_report totalCpuC); reflexivity.
  - apply (total_of_report totalSys); reflexivity.
Qed.

Lemma parseScaleneFile_functions_witness :
  map Function.name
    (FileData.functions
       (parseScaleneFile
          (raw_file []
             [raw_function (Some "main") (Some 3%N);
              raw_function (Some "") (Some 4%N);
              raw_function None (Some 5%N);
              raw_function (Some "helper") (Some 9%N)])))
  = ["main"; "helper"].
Proof.
  pose proof (parseScaleneFile_functions
                (raw_file []
                   [raw_function (Some "main") (Some 3%N);
                    raw_function (Some "") (Some 4%N);
                    raw_function None (Some 5%N);
                    raw_function (Some "helper") (Some 9%N)])) as (Heq & _).
  apply (f_equal (omap RawFunction.name)) in Heq.
  set (fs := FileData.functions _) in *.
  assert (Hnames : omap RawFunction.name (map raw_of_function fs)
                   = map Function.name fs).
  { clear. induction fs as [|f fs IH]; [reflexivity|].
    simpl. f_equal. exact IH. }
  rewrite Hnames in Heq. exact Heq.
Defined.

(** ** Report normaliser: the program and the file map *)

(** The program of a report is never the empty string: it is the first
    argument when there is a non-empty one, else the file name when there
    is a non-empty one, else "Unknown". *)
Theorem program_never_empty (raw : RawScaleneProfile) :
  let program := Profile.program (parseScaleneProfile raw) in
  program <> "" /\
  (forall a rest,
      RawProfile.args raw = Some (a :: rest) -> a <> "" -> program = a) /\
  (forall nm,
      RawProfile.args raw ≫= head = None \/
      RawProfile.args raw ≫= head = Some "" ->
      RawProfile.filename raw = Some nm -> nm <> "" -> program = nm) /\
  (RawProfile.args raw ≫= head = None \/
   RawProfile.args raw ≫= head = Some "" ->
   RawProfile.filename raw = None \/ RawProfile.filename raw = Some "" ->
   program = "Unknown").
Proof.
  unfold parseScaleneProfile; simpl.
  split; [|split; [|split]].
  - unfold or_lit, or_str.
    destruct (RawProfile.args raw ≫= head) as [[|c s]|]; simpl;
      try discriminate;
      destruct (RawProfile.filename raw) as [[|c' s']|]; simpl; discriminate.
  - intros a rest Hargs Ha. rewrite Hargs; simpl.
    destruct a; [congruence | reflexivity].
  - intros nm [Hh|Hh] Hf Hnm; rewrite Hh, Hf; simpl;
      destruct nm; simpl; congruence.
  - intros [Hh|Hh] [Hf|Hf]; rewrite Hh, Hf; reflexivity.
Qed.

Lemma program_never_empty_witness :
  Profile.program (parseScaleneProfile (raw_report [])) = "Unknown".
Proof.
  pose proof (program_never_empty (raw_report [])) as (_ & _ & _ & Hunknown).
  apply Hunknown; left; reflexivity.
Defined.

Lemma aggregate_lines_files (ls : list ScaleneLineData) (st : Locals) :
  files (fold_left aggregate_line ls st) = files st.
Proof.
  revert st. induction ls as [|d ls IH]; simpl; intros st; [reflexivity|].
  rewrite IH. reflexivity.
Qed.

Lemma aggregate_files_files (fs : list (string * RawScaleneFile))
    (st : Locals) :
  files (fold_left aggregate_file fs st)
  = fold_left
      (fun m entry => assign_file (fst entry) (parseScaleneFile (snd entry)) m)
      fs (files st).
Proof.
  revert st. induction fs as [|[path file] fs IH]; simpl; intros st;
    [reflexivity|].
  rewrite IH, aggregate_lines_files. reflexivity.
Qed.

Lemma assign_file_lookup (p path : string) (nf : ScaleneFileData)
    (m : gmap string ScaleneFileData) :
  assign_file path nf m !! p
  = if decide (path = p /\ path <> "__proto__") then Some nf else m !! p.
Proof.
  unfold assign_file. destruct (String.eqb path "__proto__") eqn:Heq.
  - apply String.eqb_eq in Heq. destruct (decide _) as [[_ Hne]|_];
      [congruence | reflexivity].
  - apply String.eqb_neq in Heq. destruct (decide _) as [[-> _]|Hn].
    + apply lookup_insert_eq.
    + apply lookup_insert_ne. tauto.
Qed.

Lemma assign_files_lookup (fs : list (string * RawScaleneFile))
    (m : gmap string ScaleneFileData) (p : string) :
  is_Some
    (fold_left
       (fun m entry => assign_file (fst entry) (parseScaleneFile (snd entry)) m)
       fs m !! p) <->
  is_Some (m !! p) \/ (p <> "__proto__" /\ exists file, In (p, file) fs).
Proof.
  revert m. induction fs as [|[path file] fs IH]; simpl; intros m.
  - split; [auto | intros [H|(_ & ? & [])]; exact H].
  - rewrite IH, assign_file_lookup. simpl.
    destruct (decide (path = p /\ path <> "__proto__")) as [[-> Hne]|Hn].
    + split; [|eauto]. intros _. right. split; [exact Hne|]. eauto.
    + split.
      * intros [H|(Hne & f & Hin)]; [auto|]. right. split; [exact Hne|]. eauto.
      * intros [H|(Hne & f & [Heq|Hin])]; [auto| |right; eauto].
        inversion Heq; subst. exfalso. apply Hn. auto.
Qed.

Lemma assign_files_last (fs : list (string * RawScaleneFile))
    (m : gmap string ScaleneFileData) (p : string) (file : RawScaleneFile) :
  NoDup (map fst fs) -> In (p, file) fs -> p <> "__proto__" ->
  fold_left
    (fun m entry => assign_file (fst entry) (parseScaleneFile (snd entry)) m)
    fs m !! p
  = Some (parseScaleneFile file).
Proof.
  revert m. induction fs as [|[path f0] fs IH]; simpl; intros m Hnd Hin Hne;
    [tauto|].
  inversion Hnd as [|? ? Hfresh Hnd']; subst.
  destruct Hin as [Heq|Hin]; [|apply IH; assumption].
  inversion Heq; subst. clear Heq.
  assert (Hkeep : forall (gs : list (string * RawScaleneFile)) m0,
             ~ In p (map fst gs) ->
             fold_left
               (fun m entry =>
                  assign_file (fst entry) (parseScaleneFile (snd entry)) m)
               gs m0 !! p = m0 !! p).
  { clear. induction gs as [|[q g] gs IHg]; simpl; intros m0 Hq;
      [reflexivity|].
    rewrite IHg by tauto. rewrite assign_file_lookup. simpl.
    destruct (decide _) as [[-> _]|_]; [tauto | reflexivity]. }
  rewrite Hkeep by (rewrite <- list_elem_of_In; exact Hfresh).
  rewrite assign_file_lookup.
  destruct (decide _) as [_|Hn]; [reflexivity | tauto].
Qed.

(** The file map of the report has a key exactly for the paths of the raw
    report other than "__proto__", and under each path of a raw report
    with distinct paths it holds the normalisation of that file. *)
Theorem report_files_domain (raw : RawScaleneProfile) :
  (forall p,
      is_Some (Profile.files (parseScaleneProfile raw) !! p) <->
      p <> "__proto__" /\ exists file, In (p, file) (RawProfile.files raw)) /\
  (forall p file,
      NoDup (map fst (RawProfile.files raw)) ->
      In (p, file) (RawProfile.files raw) -> p <> "__proto__" ->
      Profile.files (parseScaleneProfile raw) !! p
      = Some (parseScaleneFile file)).
Proof.
  unfold parseScaleneProfile; simpl. rewrite aggregate_files_files. split.
  - intros p. rewrite assign_files_lookup. simpl. rewrite lookup_empty.
    split; [intros [[? H]|H]; [discriminate | exact H] | auto].
  - intros p file. apply assign_files_last.
Qed.

Lemma report_files_domain_witness :
  Profile.files (parseScaleneProfile two_peaks_report) !! "b.py"
  = Some (parseScaleneFile
            (raw_file [memory_line 1 None None None (Some 200%Q)] [])).
Proof.
  apply (proj2 (report_files_domain two_peaks_report)).
  - simpl. apply NoDup_cons. split; [|apply NoDup_singleton].
    intros Hin%list_elem_of_In. destruct Hin as [H|[]]. discriminate H.
  - simpl. auto.
  - discriminate.
Defined.

(** ** Report normaliser: the order of the files *)

Ltac name_max a b :=
  let z := fresh "z" in
  let H := fresh "H" in
  pose proof (Q.max_spec a b) as H; set (z := Qmax a b) in *; clearbody z.

Ltac max_cases :=
  repeat match goal with
         | |- context [Qmax ?a ?b] => name_max a b
         | _ : context [Qmax ?a ?b] |- _ => name_max a b
         end;
  repeat match goal with
         | H : _ /\ _ \/ _ /\ _ |- _ => destruct H as [[? ?]|[? ?]]
         end.

Lemma peak_max_perm (xs ys : list ScaleneLineData) :
  Permutation xs ys -> (peak_max xs == peak_max ys)%Q.
Proof.
  induction 1 as [|d xs ys _ IH|d e xs|xs ys zs _ IH1 _ IH2]; simpl.
  - reflexivity.
  - destruct (LineData.n_peak_mb d) as [p|]; [|exact IH].
    max_cases; lra.
  - destruct (LineData.n_peak_mb d) as [p|], (LineData.n_peak_mb e) as [q|];
      try reflexivity.
    max_cases; lra.
  - rewrite IH1. exact IH2.
Qed.

Lemma lines_of_files_perm (fs gs : list (string * RawScaleneFile)) :
  Permutation fs gs -> Permutation (lines_of_files fs) (lines_of_files gs).
Proof.
  unfold lines_of_files.
  induction 1 as [|e fs gs _ IH|e e' fs|fs gs hs _ IH1 _ IH2]; simpl.
  - constructor.
  - apply Permutation_app_head. exact IH.
  - rewrite !app_assoc. apply Permutation_app_tail, Permutation_app_comm.
  - eapply Permutation_trans; eassumption.
Qed.

Lemma max_memory_mb_peak_max (raw : RawScaleneProfile) :
  (Profile.max_memory_mb (parseScaleneProfile raw)
   == peak_max (visited_lines raw))%Q.
Proof.
  rewrite max_memory_mb_running, running_max_peak_max by lra.
  apply Q.max_r, peak_max_nonneg.
Qed.

(** The reported peak does not depend on the order in which the files of
    the raw report are listed: two reports with the same files in another
    order have equal max_memory_mb. *)
Theorem max_memory_order_independent (raw raw' : RawScaleneProfile) :
  Permutation (RawProfile.files raw) (RawProfile.files raw') ->
  (Profile.max_memory_mb (parseScaleneProfile raw)
   == Profile.max_memory_mb (parseScaleneProfile raw'))%Q.
Proof.
  intros Hperm. rewrite !max_memory_mb_peak_max.
  apply peak_max_perm, lines_of_files_perm. exact Hperm.
Qed.

Lemma max_memory_order_independent_witness :
  Permutation (RawProfile.files two_peaks_report)
    (rev (RawProfile.files two_peaks_report)) /\
  (Profile.max_memory_mb (parseScaleneProfile two_peaks_report)
   == Profile.max_memory_mb
        (parseScaleneProfile
           (raw_report (rev (RawProfile.files two_peaks_report)))))%Q.
Proof.
  assert (H : Permutation (RawProfile.files two_peaks_report)
                (rev (RawProfile.files two_peaks_report)))
    by (simpl; apply perm_swap).
  split; [exact H|].
  apply (max_memory_order_independent two_peaks_report
           (raw_report (rev (RawProfile.files two_peaks_report)))).
  exact H.
Defined.

(** * The viewer *)

(** ** Sorting *)

Section SortFacts.
Context {A : Type} (compareFn : A -> A -> Q).

Lemma sort_insert_perm (x : A) (l : list A) :
  Permutation (sort_insert compareFn x l) (x :: l).
Proof.
  induction l as [|y l IH]; simpl; [reflexivity|].
  destruct (Qle_bool (compareFn x y) 0); [reflexivity|].
  rewrite IH. apply perm_swap.
Qed.

Lemma js_sort_perm (l : list A) : Permutation (js_sort compareFn l) l.
Proof.
  induction l as [|x l IH]; simpl; [reflexivity|].
  rewrite sort_insert_perm, IH. reflexivity.
Qed.

(** A comparator that subtracts keys, the greater key first. *)
Variable key : A -> Q.
Hypothesis compare_keys : forall a b, (compareFn a b == key b - key a)%Q.

Lemma sort_insert_sorted (x : A) (l : list A) :
  StronglySorted (fun a b => (key b <= key a)%Q) l ->
  StronglySorted (fun a b => (key b <= key a)%Q) (sort_insert compareFn x l).
Proof.
  induction l as [|y l IH]; simpl; intros Hs.
  - constructor; [constructor | constructor].
  - inversion Hs as [|? ? Hl Hall]; subst.
    destruct (Qle_bool (compareFn x y) 0) eqn:Hc.
    + apply Qle_bool_iff in Hc. rewrite compare_keys in Hc.
      constructor; [exact Hs|]. constructor; [lra|].
      eapply Forall_impl; [exact Hall|]. simpl. intros z Hz. lra.
    + assert (Hgt : (key x < key y)%Q).
      { apply Qnot_le_lt. intros Hle.
        assert (Ht : Qle_bool (compareFn x y) 0 = true)
          by (apply Qle_bool_iff; rewrite compare_keys; lra).
        congruence. }
      constructor; [apply IH; exact Hl|].
      apply Forall_forall. intros z Hz.
      apply list_elem_of_In in Hz.
      apply (Permutation_in _ (sort_insert_perm x l)) in Hz as [<-|Hz];
        [lra|].
      rewrite Forall_forall in Hall. apply Hall, list_elem_of_In, Hz.
Qed.

Lemma js_sort_sorted (l : list A) :
  StronglySorted (fun a b => (key b <= key a)%Q) (js_sort compareFn l).
Proof.
  induction l as [|x l IH]; simpl; [constructor|].
  apply sort_insert_sorted, IH.
Qed.

(** Stability: the elements of one key value keep their order. *)
Lemma js_sort_stable (v : Q) (l : list A) :
  List.filter (fun a => Qeq_bool (key a) v) (js_sort compareFn l)
  = List.filter (fun a => Qeq_bool (key a) v) l.
Proof.
  induction l as [|x l IH]; simpl; [reflexivity|].
  rewrite <- IH. clear IH.
  induction (js_sort compareFn l) as [|y s IHs]; simpl; [reflexivity|].
  destruct (Qle_bool (compareFn x y) 0) eqn:Hc; simpl; [reflexivity|].
  rewrite IHs.
  destruct (Qeq_bool (key x) v) eqn:Hx; [|reflexivity].
  destruct (Qeq_bool (key y) v) eqn:Hy; [|reflexivity].
  apply Qeq_bool_iff in Hx, Hy.
  assert (Ht : Qle_bool (compareFn x y) 0 = true)
    by (apply Qle_bool_iff; rewrite compare_keys; lra).
  congruence.
Qed.
End SortFacts.

(** ** The leak table *)

Lemma leak_compare_keys (a b : string * ScaleneLineData) :
  (leak_compare a b == shown_score (snd b) - shown_score (snd a))%Q.
Proof. reflexivity. Qed.

Lemma shown_score_leak (d : ScaleneLineData) :
  isLikelyLeak d None = true <-> (50 < shown_score d)%Q.
Proof. unfold isLikelyLeak, shown_score. simpl. apply Qltb_lt. Qed.

Lemma collect_leaks_In (entries : list (string * ScaleneFileData))
    (p : string) (d : ScaleneLineData) :
  In (p, d) (collect_leaks entries) <->
  (50 < shown_score d)%Q /\
  exists fileData,
    In (p, fileData) entries /\
    In d (NumObj.values (FileData.lines fileData)).
Proof.
  unfold collect_leaks. rewrite in_flat_map. split.
  - intros [[q fd] [Hentry Hin]]. apply in_map_iff in Hin as [d' [Heq Hin]].
    inversion Heq; subst. clear Heq.
    apply list_elem_of_In, list_elem_of_filter in Hin as [Hleak Hin].
    apply Is_true_true, shown_score_leak in Hleak.
    split; [exact Hleak|]. exists fd. split; [exact Hentry|].
    apply list_elem_of_In. exact Hin.
  - intros [Hleak [fd [Hentry Hin]]]. exists (p, fd). split; [exact Hentry|].
    apply in_map_iff. exists d. split; [reflexivity|].
    apply list_elem_of_In, list_elem_of_filter. split.
    + apply Is_true_true, shown_score_leak. exact Hleak.
    + apply list_elem_of_In. exact Hin.
Qed.

(** The leak table lists exactly the lines whose score exceeds 50, each
    with its file, by descending score (lines of equal score in the order
    the files and lines are visited), and it is empty exactly when no line
    exceeds 50. *)
Theorem leak_rows_sorted_leaks (entries : list (string * ScaleneFileData)) :
  let rows := leak_rows entries in
  Permutation rows (collect_leaks entries) /\
  (forall p d,
      In (p, d) rows <->
      (50 < shown_score d)%Q /\
      exists fileData,
        In (p, fileData) entries /\
        In d (NumObj.values (FileData.lines fileData))) /\
  StronglySorted
    (fun a b => (shown_score (snd b) <= shown_score (snd a))%Q) rows /\
  (forall v : Q,
      List.filter (fun row => Qeq_bool (shown_score (snd row)) v) rows
      = List.filter (fun row => Qeq_bool (shown_score (snd row)) v)
          (collect_leaks entries)) /\
  (rows = [] <->
   forall p fileData d,
     In (p, fileData) entries ->
     In d (NumObj.values (FileData.lines fileData)) ->
     (shown_score d <= 50)%Q).
Proof.
  intros rows. subst rows. unfold leak_rows.
  assert (Hperm : Permutation (js_sort leak_compare (collect_leaks entries))
                    (collect_leaks entries)) by apply js_sort_perm.
  assert (Hin : forall p d,
             In (p, d) (js_sort leak_compare (collect_leaks entries)) <->
             (50 < shown_score d)%Q /\
             exists fileData,
               In (p, fileData) entries /\
               In d (NumObj.values (FileData.lines fileData))).
  { intros p d. rewrite <- collect_leaks_In. split; apply Permutation_in;
      [exact Hperm | symmetry; exact Hperm]. }
  split; [exact Hperm|]. split; [exact Hin|]. split; [|split].
  - apply (js_sort_sorted leak_compare (fun row => shown_score (snd row))).
    apply leak_compare_keys.
  - intros v.
    apply (js_sort_stable leak_compare (fun row => shown_score (snd row))).
    apply leak_compare_keys.
  - split.
    + intros Hnil p fd d Hentry Hd.
      destruct (Qlt_le_dec 50 (shown_score d)) as [Hlt|Hle]; [|exact Hle].
      assert (Hrow : In (p, d) (js_sort leak_compare (collect_leaks entries)))
        by (apply Hin; eauto).
      rewrite Hnil in Hrow. destruct Hrow.
    + intros Hnone.
      destruct (js_sort leak_compare (collect_leaks entries))
        as [|[p d] rest] eqn:Hrows; [reflexivity|].
      assert (Hrow : In (p, d) ((p, d) :: rest)) by (left; reflexivity).
      apply Hin in Hrow as [Hlt [fd [Hentry Hd]]].
      specialize (Hnone p fd d Hentry Hd). lra.
Qed.

Lemma leak_rows_sorted_leaks_witness :
  (50 < shown_score (numbered_scored_line 5 200))%Q /\
  In ("b.py", numbered_scored_line 5 200) (leak_rows scored_entries).
Proof.
  assert (H : (50 < shown_score (numbered_scored_line 5 200))%Q)
    by reflexivity.
  split; [exact H|].
  pose proof (leak_rows_sorted_leaks scored_entries) as (_ & Hin & _).
  apply Hin. split; [exact H|].
  exists (scored_file [numbered_scored_line 5 200; numbered_scored_line 8 120]).
  split; [simpl; auto | vm_compute; auto].
Defined.

(** The rows of the sample, in full. *)
Example leak_rows_sample :
  map (fun row => (fst row, LineData.lineno (snd row)))
    (leak_rows scored_entries)
  = [("b.py", 5%N); ("a.py", 3%N); ("b.py", 8%N); ("a.py", 1%N)].
Proof. vm_compute. reflexivity. Qed.

(** In the leak table a row badged MEDIUM has a score above 50 and at most
    100, a row badged HIGH a score above 100 and at most 150, and a row
    badged CRITICAL a score above 150; every row has one of the three. *)
Theorem leak_rows_badges (entries : list (string * ScaleneFileData))
    (p : string) (d : ScaleneLineData) :
  In (p, d) (leak_rows entries) ->
  (scoreBadge d = "🟡 MEDIUM" /\ (50 < shown_score d <= 100)%Q) \/
  (scoreBadge d = "🟠 HIGH" /\ (100 < shown_score d <= 150)%Q) \/
  (scoreBadge d = "🔴 CRITICAL" /\ (150 < shown_score d)%Q).
Proof.
  intros Hin.
  apply (Permutation_in _ (js_sort_perm leak_compare (collect_leaks entries)))
    in Hin.
  apply collect_leaks_In in Hin as [Hleak _].
  unfold scoreBadge. fold (shown_score d).
  destruct (Qltb 150 (shown_score d)) eqn:H150; reflect_tests; [auto|].
  destruct (Qltb 100 (shown_score d)) eqn:H100; reflect_tests; auto.
Qed.

Lemma leak_rows_badges_witness :
  scoreBadge (numbered_scored_line 3 120) = "🟠 HIGH".
Proof.
  assert (Hin : In ("a.py", numbered_scored_line 3 120)
                  (leak_rows scored_entries)) by (vm_compute; auto).
  destruct (leak_rows_badges scored_entries "a.py"
              (numbered_scored_line 3 120) Hin)
    as [[_ [_ Hle]]|[[Hb _]|[_ Hlt]]].
  - exfalso. revert Hle. vm_compute. intros Hle. apply Hle. reflexivity.
  - exact Hb.
  - exfalso. revert Hlt. vm_compute. discriminate.
Defined.

(** ** The function table *)

Lemma function_compare_keys (a b : string * ScaleneFunction) :
  (function_compare a b == function_cpu (snd b) - function_cpu (snd a))%Q.
Proof. reflexivity. Qed.



(** ** Escaping *)

Lemma append_cons (x : ascii) (a b : string) :
  String x a +:+ b = String x (a +:+ b).
Proof. reflexivity. Qed.

Lemma append_assoc (a b c : string) : (a +:+ b) +:+ c = a +:+ (b +:+ c).
Proof.
  induction a as [|x a IH]; [reflexivity|].
  rewrite !append_cons, IH. reflexivity.
Qed.

Lemma replaceAll_app (c : ascii) (r s1 s2 : string) :
  replaceAll c r (s1 +:+ s2) = replaceAll c r s1 +:+ replaceAll c r s2.
Proof.
  induction s1 as [|a s1 IH]; [reflexivity|].
  rewrite append_cons. simpl.
  destruct (Ascii.eqb a c); rewrite IH; [|reflexivity].
  symmetry. apply append_assoc.
Qed.

Lemma escapeHtml_app (s1 s2 : string) :
  escapeHtml (s1 +:+ s2) = escapeHtml s1 +:+ escapeHtml s2.
Proof. unfold escapeHtml. rewrite !replaceAll_app. reflexivity. Qed.

Lemma escapeHtml_char (a : ascii) :
  escapeHtml (String a EmptyString) = escape_char a.
Proof.
  destruct a as [[] [] [] [] [] [] [] []]; reflexivity.
Qed.

Lemma escapeHtml_each (s : string) : escapeHtml s = escape_each s.
Proof.
  induction s as [|a s IH]; [reflexivity|].
  change (String a s) with (String a EmptyString +:+ s).
  rewrite escapeHtml_app, escapeHtml_char, IH. reflexivity.
Qed.

(** The five replacements of [escapeHtml], run one after the other over
    the whole text, amount to one pass that escapes each character on its
    own: no replacement escapes the output of another.  So escaping
    distributes over concatenation, and a text without any of the five
    characters is returned as it is. *)
Theorem escapeHtml_single_pass :
  (forall s, escapeHtml s = escape_each s) /\
  (forall s1 s2, escapeHtml (s1 +:+ s2) = escapeHtml s1 +:+ escapeHtml s2) /\
  (forall s,
      (forall c, In c (chars s) -> is_special c = false) ->
      escapeHtml s = s).
Proof.
  split; [exact escapeHtml_each|]. split; [exact escapeHtml_app|].
  intros s Hplain. rewrite escapeHtml_each.
  induction s as [|a s IH]; simpl; [reflexivity|].
  rewrite IH by (intros c Hc; apply Hplain; simpl; auto).
  assert (Ha : is_special a = false) by (apply Hplain; simpl; auto).
  apply orb_false_elim in Ha as [H1 Hm].
  apply orb_false_elim in Hm as [Hm H5].
  apply orb_false_elim in Hm as [Hm H4].
  apply orb_false_elim in Hm as [H2 H3].
  unfold escape_char. rewrite H1, H2, H3, H4, H5. reflexivity.
Qed.

Lemma escapeHtml_single_pass_witness :
  escapeHtml "x = 1" = "x = 1".
Proof.
  apply (proj2 (proj2 escapeHtml_single_pass)).
  intros c [<-|[<-|[<-|[<-|[<-|[]]]]]]; reflexivity.
Defined.

Lemma chars_app (s1 s2 : string) :
  chars (s1 +:+ s2) = (chars s1 ++ chars s2)%list.
Proof.
  induction s1 as [|a s1 IH]; [reflexivity|].
  rewrite append_cons. simpl. rewrite IH. reflexivity.
Qed.

Lemma escape_char_no_markup (a : ascii) :
  forallb (fun c => negb (is_markup c)) (chars (escape_char a)) = true.
Proof.
  destruct a as [[] [] [] [] [] [] [] []]; reflexivity.
Qed.

(** The escaped text contains no [<], [>], double quote or single quote,
    whatever the text. *)
Theorem escapeHtml_no_markup (s : string) (c : ascii) :
  In c (chars (escapeHtml s)) ->
  c <> "<"%char /\ c <> ">"%char /\ c <> dquote /\ c <> "'"%char.
Proof.
  rewrite escapeHtml_each. intros Hin.
  assert (Hc : is_markup c = false).
  { induction s as [|a s IH]; simpl in Hin; [destruct Hin|].
    rewrite chars_app in Hin. apply in_app_iff in Hin as [Hin|Hin];
      [|apply IH; exact Hin].
    pose proof (escape_char_no_markup a) as Hall.
    rewrite forallb_forall in Hall. apply Hall in Hin.
    apply negb_true_iff in Hin. exact Hin. }
  apply orb_false_elim in Hc as [Hc H4].
  apply orb_false_elim in Hc as [Hc H3].
  apply orb_false_elim in Hc as [H1 H2].
  apply Ascii.eqb_neq in H1, H2, H3, H4. auto.
Qed.

Lemma escapeHtml_no_markup_witness :
  In ";"%char (chars (escapeHtml "<b onclick='x'>")) /\
  (";"%char <> "<"%char /\ ";"%char <> ">"%char /\ ";"%char <> dquote /\
   ";"%char <> "'"%char).
Proof.
  assert (Hin : In ";"%char (chars (escapeHtml "<b onclick='x'>")))
    by (vm_compute; auto).
  split; [exact Hin|].
  exact (escapeHtml_no_markup "<b onclick='x'>" ";"%char Hin).
Defined.

Lemma unescape_head_escape (a : ascii) (s : string) :
  unescape_head (escape_char a +:+ s) = Some (a, s).
Proof.
  destruct a as [[] [] [] [] [] [] [] []]; reflexivity.
Qed.

(** Escaping loses nothing: two texts with the same escape are the same
    text. *)
Theorem escapeHtml_injective (s1 s2 : string) :
  escapeHtml s1 = escapeHtml s2 -> s1 = s2.
Proof.
  rewrite !escapeHtml_each. revert s2.
  induction s1 as [|a s1 IH]; intros [|b s2]; simpl; intros Heq.
  - reflexivity.
  - apply (f_equal unescape_head) in Heq.
    rewrite unescape_head_escape in Heq. discriminate Heq.
  - apply (f_equal unescape_head) in Heq.
    rewrite unescape_head_escape in Heq. discriminate Heq.
  - apply (f_equal unescape_head) in Heq.
    rewrite !unescape_head_escape in Heq.
    inversion Heq; subst. f_equal. apply IH. assumption.
Qed.

Lemma escapeHtml_injective_witness :
  escapeHtml "a<b" = escapeHtml "a<b" /\ "a<b" = "a<b".
Proof.
  split; [reflexivity|].
  apply (escapeHtml_injective "a<b" "a<b"). reflexivity.
Defined.

(** * File utilities *)

Lemma split_on_cons (sep : ascii) (s : string) :
  exists first others, split_on sep s = first :: others.
Proof.
  destruct s as [|a s]; simpl; [eauto|].
  destruct (Ascii.eqb a sep); [eauto|].
  destruct (split_on sep s); eauto.
Qed.

Lemma split_on_join (sep : ascii) (s : string) :
  join_with (String sep EmptyString) (split_on sep s) = s.
Proof.
  induction s as [|a s IH]; [reflexivity|]. simpl.
  destruct (split_on_cons sep s) as (first & others & Hs).
  rewrite Hs in IH |- *.
  destruct (Ascii.eqb a sep) eqn:Ha.
  - apply Ascii.eqb_eq in Ha; subst a.
    change (join_with (String sep "") ("" :: first :: others))
      with ("" +:+ String sep "" +:+ join_with (String sep "") (first :: others)).
    rewrite IH. reflexivity.
  - destruct others as [|second others].
    + simpl in *. subst. reflexivity.
    + change (join_with (String sep "") (String a first :: second :: others))
        with (String a first +:+ String sep ""
              +:+ join_with (String sep "") (second :: others)).
      change (join_with (String sep "") (first :: second :: others))
        with (first +:+ String sep ""
              +:+ join_with (String sep "") (second :: others)) in IH.
      rewrite append_cons, IH. reflexivity.
Qed.

Lemma split_on_no_sep (sep : ascii) (s l : string) :
  In l (split_on sep s) -> ~ In sep (chars l).
Proof.
  revert l. induction s as [|a s IH]; simpl; intros l Hin.
  - destruct Hin as [<-|[]]. simpl. tauto.
  - destruct (Ascii.eqb a sep) eqn:Ha.
    + destruct Hin as [<-|Hin]; [simpl; tauto | apply IH; exact Hin].
    + apply Ascii.eqb_neq in Ha.
      destruct (split_on sep s) as [|first others]; simpl in Hin.
      * destruct Hin as [<-|[]]. simpl. intros [?|[]]. congruence.
      * destruct Hin as [<-|Hin]; [|apply IH; simpl; auto].
        simpl. intros [?|Hc]; [congruence|].
        apply (IH first); simpl; auto.
Qed.

Section FilesFacts.
Variable workspaceFolder : option string.
Variable existsSync : string -> bool.
Variable readFileSync : string -> option string.
Variable isAbsolute : string -> bool.
Variable join : string -> string -> string.
Variable dirname : string -> string.

(** No line of a source file that is read holds a line feed. *)
Lemma readSourceFile_clean (filePath : string) (sourceFile : SourceFile) :
  readSourceFile workspaceFolder existsSync readFileSync isAbsolute join
    filePath = Some sourceFile ->
  forall l, In l (SourceFile.lines sourceFile) -> ~ In newline (chars l).
Proof.
  unfold readSourceFile.
  set (fullPath := if negb (isAbsolute filePath) then _ else _).
  destruct (existsSync fullPath); simpl; [|discriminate].
  destruct (readFileSync fullPath) as [content|]; [|discriminate].
  intros [= <-] l. simpl. apply split_on_no_sep.
Qed.


Lemma Qred_integer (z : Z) : Qred (inject_Z z - 1) = inject_Z (z - 1).
Proof.
  unfold inject_Z, Qminus, Qplus, Qopp; simpl.
  rewrite Qcanon.Qred_identity by apply Z.gcd_1_r.
  f_equal. lia.
Qed.

(** For an integer line number [getSourceLine] always returns a string,
    free of line feeds: the empty string when the file cannot be read or
    the number is below 1 or above the number of lines, else the line of
    that number, counted from 1. *)
Theorem getSourceLine_integer (filePath : string) (n : Z) :
  let result :=
    getSourceLine workspaceFolder existsSync readFileSync isAbsolute join
      filePath (inject_Z n) in
  (exists s, result = Some s /\ ~ In newline (chars s)) /\
  match readSourceFile workspaceFolder existsSync readFileSync isAbsolute
          join filePath with
  | None => result = Some ""
  | Some sourceFile =>
      let lines := SourceFile.lines sourceFile in
      ((n < 1)%Z \/ (Z.of_nat (length lines) < n)%Z -> result = Some "") /\
      ((1 <= n <= Z.of_nat (length lines))%Z ->
       result = nth_error lines (Z.to_nat (n - 1)))
  end.
Proof.
  clear dirname. intros result. subst result. unfold getSourceLine.
  pose proof (readSourceFile_clean filePath) as Hclean.
  destruct (readSourceFile _ _ _ _ _ filePath) as [sf|];
    [|split; [exists ""; simpl; tauto | reflexivity]].
  specialize (Hclean sf eq_refl).
  set (lines := SourceFile.lines sf) in *.
  assert (Hlow : Qltb (inject_Z n) 1 = true <-> (n < 1)%Z).
  { rewrite Qltb_lt. change 1%Q with (inject_Z 1). rewrite <- Zlt_Qlt.
    reflexivity. }
  assert (Hhigh : Qltb (inject_Z (Z.of_nat (length lines))) (inject_Z n) = true
                  <-> (Z.of_nat (length lines) < n)%Z).
  { rewrite Qltb_lt, <- Zlt_Qlt. reflexivity. }
  assert (Hin : (1 <= n <= Z.of_nat (length lines))%Z ->
                Qltb (inject_Z n) 1
                || Qltb (inject_Z (Z.of_nat (length lines))) (inject_Z n)
                = false /\
                array_get lines (inject_Z n - 1)
                = nth_error lines (Z.to_nat (n - 1)) /\
                is_Some (nth_error lines (Z.to_nat (n - 1)))).
  { intros Hn. split; [|split].
    - apply orb_false_iff. split; apply not_true_iff_false;
        [rewrite Hlow | rewrite Hhigh]; lia.
    - unfold array_get. rewrite Qred_integer. simpl.
      assert (Hz : (0 <=? n - 1)%Z = true) by (apply Z.leb_le; lia).
      rewrite Hz. reflexivity.
    - destruct (nth_error lines (Z.to_nat (n - 1))) eqn:E; [eauto|].
      apply nth_error_None in E. lia. }
  assert (Hout : (n < 1)%Z \/ (Z.of_nat (length lines) < n)%Z ->
                 Qltb (inject_Z n) 1
                 || Qltb (inject_Z (Z.of_nat (length lines))) (inject_Z n)
                 = true).
  { intros [H|H]; apply orb_true_iff; [left; apply Hlow | right; apply Hhigh];
      exact H. }
  split.
  - destruct (Z_lt_dec n 1) as [H|H];
      [rewrite Hout by auto; exists ""; simpl; tauto|].
    destruct (Z_lt_dec (Z.of_nat (length lines)) n) as [H'|H'];
      [rewrite Hout by auto; exists ""; simpl; tauto|].
    destruct Hin as (-> & -> & [s Hs]); [lia|].
    exists s. split; [exact Hs|]. apply Hclean.
    eapply nth_error_In. exact Hs.
  - split.
    + intros H. rewrite Hout by exact H. reflexivity.
    + intros H. destruct (Hin H) as (-> & -> & _). reflexivity.
Qed.

(** [resolveFilePath] returns an absolute path as it is; otherwise it
    returns the path under the workspace folder when that exists, else the
    path beside the profile when that exists, else its argument: the
    result is the argument itself or a path that exists. *)
Theorem resolveFilePath_exists (filePath profilePath : string) :
  let result :=
    resolveFilePath workspaceFolder existsSync isAbsolute join dirname
      filePath profilePath in
  (isAbsolute filePath = true -> result = filePath) /\
  (result = filePath \/ existsSync result = true) /\
  (forall folder,
      isAbsolute filePath = false -> workspaceFolder = Some folder ->
      existsSync (join folder filePath) = true ->
      result = join folder filePath) /\
  (isAbsolute filePath = false ->
   (forall folder, workspaceFolder = Some folder ->
                   existsSync (join folder filePath) = false) ->
   existsSync (join (dirname profilePath) filePath) = true ->
   result = join (dirname profilePath) filePath) /\
  (isAbsolute filePath = false ->
   (forall folder, workspaceFolder = Some folder ->
                   existsSync (join folder filePath) = false) ->
   existsSync (join (dirname profilePath) filePath) = false ->
   result = filePath).
Proof.
  intros result. subst result. unfold resolveFilePath.
  split; [intros ->; reflexivity|]. split; [|split; [|split]].
  - destruct (isAbsolute filePath); [auto|].
    destruct workspaceFolder as [folder|].
    + destruct (existsSync (join folder filePath)) eqn:H1; [auto|].
      destruct (existsSync (join (dirname profilePath) filePath)) eqn:H2; auto.
    + destruct (existsSync (join (dirname profilePath) filePath)) eqn:H2; auto.
  - intros folder -> -> ->. reflexivity.
  - intros -> Hws Hrel. destruct workspaceFolder as [folder|].
    + rewrite (Hws folder eq_refl), Hrel. reflexivity.
    + rewrite Hrel. reflexivity.
  - intros -> Hws Hrel. destruct workspaceFolder as [folder|].
    + rewrite (Hws folder eq_refl), Hrel. reflexivity.
    + rewrite Hrel. reflexivity.
Qed.
End FilesFacts.


Lemma getSourceLine_integer_witness :
  (1 <= 2 <= 2)%Z /\
  getSourceLine (Some "/ws") sample_exists sample_read sample_isAbsolute
    sample_join "a.py" 2 = Some "y = 2".
Proof.
  assert (Hn : (1 <= 2 <= 2)%Z) by lia.
  split; [exact Hn|].
  pose proof (getSourceLine_integer (Some "/ws") sample_exists sample_read
                sample_isAbsolute sample_join "a.py" 2) as [_ Hline].
  change (readSourceFile (Some "/ws") sample_exists sample_read
            sample_isAbsolute sample_join "a.py")
    with (Some {| SourceFile.path := "a.py";
                  SourceFile.lines := ["x = 1"; "y = 2"] |}) in Hline.
  destruct Hline as [_ Hline]. exact (Hline Hn).
Defined.

Lemma resolveFilePath_exists_witness :
  resolveFilePath (Some "/ws") sample_exists sample_isAbsolute sample_join
    sample_dirname "a.py" "/profiles/p.json" = "/ws/a.py".
Proof.
  pose proof (resolveFilePath_exists (Some "/ws") sample_exists
                sample_isAbsolute sample_join sample_dirname "a.py"
                "/profiles/p.json") as (_ & _ & Hws & _).
  apply (Hws "/ws"); reflexivity.
Defined.

(** A relative path found in neither place comes back as it is. *)
Example resolveFilePath_double_miss :
  resolveFilePath (Some "/ws") sample_exists sample_isAbsolute sample_join
    sample_dirname "gone.py" "/profiles/p.json" = "gone.py".
Proof. reflexivity. Qed.

(** A line number in range that is no integer reads no element. *)
Example getSourceLine_fraction :
  getSourceLine (Some "/ws") sample_exists sample_read sample_isAbsolute
    sample_join "a.py" (3 # 2) = None.
Proof. vm_compute. reflexivity. Qed.

Section LatestFacts.
Variable outputDir : string.
Variable existsSync : string -> bool.
Variable readdirSync : string -> outcome (list string).
Variable statSync : string -> outcome Z.
Variable join : string -> string -> string.

Lemma candidate_compare_keys (a b : Candidate) :
  (candidate_compare a b
   == inject_Z (Candidate.time b) - inject_Z (Candidate.time a))%Q.
Proof.
  unfold candidate_compare, Qeq, Qminus, Qplus, Qopp, inject_Z; simpl. lia.
Qed.

Lemma stat_all_Threw (names : list string) :
  stat_all outputDir statSync join names = Threw <->
  exists f, In f names /\ statSync (join outputDir f) = Threw.
Proof.
  induction names as [|f names IH]; simpl.
  - split; [discriminate | intros (? & [] & _)].
  - destruct (statSync (join outputDir f)) as [t|] eqn:Ht; simpl.
    + destruct (stat_all outputDir statSync join names) as [cs|]; simpl.
      * split; [discriminate|]. intros (g & [<-|Hg] & Hthrew).
        -- congruence.
        -- assert (Hn : (Returned cs : outcome (list Candidate)) = Threw)
             by (apply IH; eauto).
           discriminate Hn.
      * split; [|reflexivity]. intros _.
        destruct (proj1 IH eq_refl) as (g & Hg & Hthrew). eauto.
    + split; [|reflexivity]. intros _. exists f. auto.
Qed.

Lemma stat_all_Returned (names : list string) (cs : list Candidate) :
  stat_all outputDir statSync join names = Returned cs ->
  (forall c, In c cs ->
     exists f, In f names /\ Candidate.path c = join outputDir f /\
               statSync (join outputDir f) = Returned (Candidate.time c)) /\
  (forall f, In f names ->
     exists c, In c cs /\ Candidate.path c = join outputDir f /\
               statSync (join outputDir f) = Returned (Candidate.time c)) /\
  (cs = [] -> names = []).
Proof.
  revert cs. induction names as [|f names IH]; simpl; intros cs Hcs.
  - injection Hcs as <-. split; [intros c []|]. split; [intros f []|auto].
  - destruct (statSync (join outputDir f)) as [t|] eqn:Ht; [|discriminate Hcs].
    simpl in Hcs.
    destruct (stat_all outputDir statSync join names) as [cs'|];
      [|discriminate Hcs].
    simpl in Hcs. injection Hcs as <-.
    destruct (IH cs' eq_refl) as (Hback & Hforth & _).
    split; [|split; [|discriminate]].
    + intros c [<-|Hc]; [exists f; simpl; auto|].
      destruct (Hback c Hc) as (g & Hg & Hp & Hs). exists g. auto.
    + intros g [<-|Hg].
      * eexists. split; [left; reflexivity|]. simpl. auto.
      * destruct (Hforth g Hg) as (c & Hc & Hp & Hs). exists c.
        split; [right; exact Hc|]. auto.
Qed.

End LatestFacts.

